(** * Book Finder: a shallow embedding of src/src/App.js

    The component [App] is modelled as a state machine whose events are
    the ones React delivers to it: the debounce timer firing, the two
    pagination buttons, and the network settling a request.  Each event
    updates the component state, then the effects whose dependencies
    changed are re-run in declaration order, as React does after a
    commit.  The hook [useDebounced] is modelled separately as a timed
    state machine. *)

From Stdlib Require Import ZArith List String Ascii Bool Lia.
Import ListNotations.
Open Scope Z_scope.

(** ** JavaScript helpers used by the code *)

Module JS.

(** [Number.prototype.toString] on an integral number (below 1e21,
    where JavaScript switches to exponent notation). *)
Fixpoint digits (fuel : nat) (n : N) (acc : string) : string :=
  match fuel with
  | O => acc
  | S f =>
      let acc' := String (ascii_of_N (48 + N.modulo n 10)) acc in
      let q := N.div n 10 in
      if N.eqb q 0 then acc' else digits f q acc'
  end.

Definition N_to_dec (n : N) : string := digits (S (N.size_nat n)) n EmptyString.

Definition Z_to_dec (z : Z) : string :=
  match z with
  | Zneg p => String "-" (N_to_dec (Npos p))
  | _ => N_to_dec (Z.to_N z)
  end.

(** The characters [encodeURIComponent] leaves as they are. *)
Definition unreserved (c : ascii) : bool :=
  let n := N_of_ascii c in
  ((65 <=? n) && (n <=? 90))%N || ((97 <=? n) && (n <=? 122))%N
  || ((48 <=? n) && (n <=? 57))%N
  || existsb (Ascii.eqb c) ["-"; "_"; "."; "!"; "~"; "*"; "'"; "("; ")"]%char.

Definition hex_digit (n : N) : ascii :=
  if (n <? 10)%N then ascii_of_N (48 + n) else ascii_of_N (55 + n).

Definition percent_byte (b : N) : string :=
  String "%" (String (hex_digit (N.div b 16)) (String (hex_digit (N.modulo b 16)) EmptyString)).

(** *** JavaScript strings *)

(** A UTF-16 code unit, as its high and its low byte. *)
Record code_unit := CU { cu_hi : ascii; cu_lo : ascii }.

Definition cu_val (u : code_unit) : N :=
  (256 * N_of_ascii (cu_hi u) + N_of_ascii (cu_lo u))%N.

Definition cu_of_N (n : N) : code_unit :=
  CU (ascii_of_N (n / 256)) (ascii_of_N (n mod 256)).

(** A JavaScript string value: its sequence of UTF-16 code units. *)
Record jsstr := JStr { units : list code_unit }.

(** String literals of type [jsstr] (all literals of this file are
    ASCII, one code unit per character). *)
Definition jsstr_of_bytes (l : list Byte.byte) : jsstr :=
  JStr (map (fun b => CU zero (ascii_of_byte b)) l).

Fixpoint bytes_of_units (l : list code_unit) : option (list Byte.byte) :=
  match l with
  | [] => Some []
  | u :: l' =>
      if Ascii.eqb (cu_hi u) zero && (N_of_ascii (cu_lo u) <? 128)%N
      then option_map (cons (byte_of_ascii (cu_lo u))) (bytes_of_units l')
      else None
  end.

Definition bytes_of_jsstr (s : jsstr) : option (list Byte.byte) := bytes_of_units (units s).

Declare Scope jsstr_scope.
Delimit Scope jsstr_scope with js.
Bind Scope jsstr_scope with jsstr.
String Notation jsstr jsstr_of_bytes bytes_of_jsstr : jsstr_scope.

(** [===] on strings. *)
Definition cu_eqb (a b : code_unit) : bool :=
  Ascii.eqb (cu_hi a) (cu_hi b) && Ascii.eqb (cu_lo a) (cu_lo b).

Fixpoint units_eqb (a b : list code_unit) : bool :=
  match a, b with
  | [], [] => true
  | x :: a', y :: b' => cu_eqb x y && units_eqb a' b'
  | _, _ => false
  end.

Definition js_eqb (a b : jsstr) : bool := units_eqb (units a) (units b).

(** *** [encodeURIComponent] *)

Definition is_high_surrogate (u : N) : bool := ((55296 <=? u) && (u <=? 56319))%N.
Definition is_low_surrogate (u : N) : bool := ((56320 <=? u) && (u <=? 57343))%N.

(** The UTF-8 bytes of a code point. *)
Definition utf8 (cp : N) : list N :=
  if (cp <? 128)%N then [cp]
  else if (cp <? 2048)%N then [192 + cp / 64; 128 + cp mod 64]%N
  else if (cp <? 65536)%N then [224 + cp / 4096; 128 + (cp / 64) mod 64; 128 + cp mod 64]%N
  else [240 + cp / 262144; 128 + (cp / 4096) mod 64; 128 + (cp / 64) mod 64;
        128 + cp mod 64]%N.

Definition percent_bytes (bs : list N) : string :=
  fold_right (fun b acc => (percent_byte b ++ acc)%string) EmptyString bs.

(** A code unit that is not part of a surrogate pair. *)
Definition encode_unit (u : N) : string :=
  if (u <? 128)%N && unreserved (ascii_of_N u) then String (ascii_of_N u) EmptyString
  else percent_bytes (utf8 u).

(** ECMAScript's Encode with the unreserved set of
    [encodeURIComponent]: a high surrogate followed by a low one is one
    code point, written as its four UTF-8 bytes; any other surrogate is
    unpaired and Encode throws a [URIError] ([None]). *)
Fixpoint encode_units (l : list code_unit) : option string :=
  match l with
  | [] => Some EmptyString
  | c :: l' =>
      let u := cu_val c in
      if is_low_surrogate u then None
      else if is_high_surrogate u then
        match l' with
        | c2 :: l'' =>
            let v := cu_val c2 in
            if is_low_surrogate v then
              match encode_units l'' with
              | Some e =>
                  Some (percent_bytes (utf8 ((u - 55296) * 1024 + (v - 56320) + 65536)%N)
                        ++ e)%string
              | None => None
              end
            else None
        | [] => None
        end
      else
        match encode_units l' with
        | Some e => Some (encode_unit u ++ e)%string
        | None => None
        end
  end.

Definition encodeURIComponent (s : jsstr) : option string := encode_units (units s).

(** The message of that [URIError] (V8). *)
Definition uri_malformed : string := "URI malformed".

(** [String.prototype.split] on a one-character separator. *)
Fixpoint split_on (sep : ascii) (s : string) : list string :=
  match s with
  | EmptyString => [EmptyString]
  | String c s' =>
      let rest := split_on sep s' in
      if Ascii.eqb c sep then EmptyString :: rest
      else match rest with
           | r :: rs => String c r :: rs
           | [] => [String c EmptyString]
           end
  end.

Fixpoint has_char (c : ascii) (s : string) : bool :=
  match s with
  | EmptyString => false
  | String x s' => Ascii.eqb x c || has_char c s'
  end.

(** Splits at the first occurrence of [sep]. *)
Fixpoint split_first (sep : ascii) (s : string) : string * string :=
  match s with
  | EmptyString => (EmptyString, EmptyString)
  | String c s' =>
      if Ascii.eqb c sep then (EmptyString, s')
      else let (a, b) := split_first sep s' in (String c a, b)
  end.

(** The query parameters of a URL, in order, as [URLSearchParams] lists
    them for values already percent-encoded. *)
Definition url_params (url : string) : list (string * string) :=
  map (split_first "=") (split_on "&" (snd (split_first "?" url))).

End JS.

Import JS.

(** ** Data model *)

(** One record of the [docs] array of the search response. *)
Record Doc := mkDoc {
  key : string;
  title : option string;
  author_name : option (list string);
  first_publish_year : option Z;
  cover_i : option Z;
  isbn : option (list string)
}.

Definition perPage : Z := 20.

(** [url] in [fetchBooks] (App.js lines 41-44), once the query is
    encoded. *)
Definition search_url_enc (title : string) (page : Z) : string :=
  let start := (page - 1) * perPage in
  ("https://openlibrary.org/search.json?title=" ++ title
   ++ "&limit=" ++ Z_to_dec perPage ++ "&offset=" ++ Z_to_dec start)%string.

(** The template literal first evaluates
    [encodeURIComponent(debouncedQuery)]; when that throws, no URL is
    built. *)
Definition search_url (debouncedQuery : jsstr) (page : Z) : option string :=
  match encodeURIComponent debouncedQuery with
  | Some title => Some (search_url_enc title page)
  | None => None
  end.

(** [coverUrl] (App.js lines 62-66); [doc.cover_i] is tested for
    truthiness, so a cover id of 0 counts as absent. *)
Definition coverUrl (doc : Doc) : option string :=
  let by_isbn :=
    match isbn doc with
    | Some (i :: _) =>
        Some ("https://covers.openlibrary.org/b/isbn/" ++ i ++ "-M.jpg")%string
    | _ => None
    end in
  match cover_i doc with
  | Some c =>
      if negb (c =? 0)
      then Some ("https://covers.openlibrary.org/b/id/" ++ Z_to_dec c ++ "-M.jpg")%string
      else by_isbn
  | None => by_isbn
  end.

(** [totalPages = Math.ceil(numFound / perPage)] (App.js line 68). *)
Definition totalPages (numFound : N) : Z :=
  - ((- Z.of_N numFound) / perPage).

(** [Math.max(1, totalPages)], the page count shown (line 114). *)
Definition shownPages (numFound : N) : Z := Z.max 1 (totalPages numFound).

(** ** The response of the search endpoint *)

(** The value [res.json()] resolves to: an object with optional [docs]
    and [numFound] (a count), or [null]. *)
Inductive Json :=
| JObject (docs : option (list Doc)) (numFound : option N)
| JNull.

(** The body as [res.json()] sees it: valid JSON, or text on which it
    rejects with a [SyntaxError] carrying [syntax_message]. *)
Inductive Body :=
| BJson (j : Json)
| BNotJson (syntax_message : string).

(** How the network settles one [fetch(url)]. *)
Inductive Outcome :=
| NetError (message : string)
| Response (ok : bool) (body : Body).

(** One call of [fetchBooks]: its [AbortController] is identified by
    [rid]; [aborted] records whether [controller.abort()] ran. *)
Record Request := mkRequest {
  rid : nat;
  rquery : jsstr;
  rpage : Z;
  rurl : string;
  aborted : bool
}.

(** ** Component state *)

(** The [useState] cells of [App], the dependencies each effect last
    ran with, the controller the fetch effect's cleanup will abort, the
    [fetchBooks] calls still awaiting the network and the log of every
    request issued. *)
Record State := mkState {
  debouncedQuery : jsstr;
  page : Z;
  results : list Doc;
  numFound : N;
  loading : bool;
  error : option string;
  deps_reset : option jsstr;
  deps_fetch : option (jsstr * Z);
  controller : option nat;
  pending : list Request;
  issued : list Request;
  next_id : nat
}.

Definition set_debouncedQuery (v : jsstr) (s : State) : State :=
  mkState v (page s) (results s) (numFound s) (loading s) (error s)
    (deps_reset s) (deps_fetch s) (controller s) (pending s) (issued s) (next_id s).

Definition set_page (p : Z) (s : State) : State :=
  mkState (debouncedQuery s) p (results s) (numFound s) (loading s) (error s)
    (deps_reset s) (deps_fetch s) (controller s) (pending s) (issued s) (next_id s).

Definition set_results (r : list Doc) (s : State) : State :=
  mkState (debouncedQuery s) (page s) r (numFound s) (loading s) (error s)
    (deps_reset s) (deps_fetch s) (controller s) (pending s) (issued s) (next_id s).

Definition set_numFound (n : N) (s : State) : State :=
  mkState (debouncedQuery s) (page s) (results s) n (loading s) (error s)
    (deps_reset s) (deps_fetch s) (controller s) (pending s) (issued s) (next_id s).

Definition set_loading (b : bool) (s : State) : State :=
  mkState (debouncedQuery s) (page s) (results s) (numFound s) b (error s)
    (deps_reset s) (deps_fetch s) (controller s) (pending s) (issued s) (next_id s).

Definition set_error (e : option string) (s : State) : State :=
  mkState (debouncedQuery s) (page s) (results s) (numFound s) (loading s) e
    (deps_reset s) (deps_fetch s) (controller s) (pending s) (issued s) (next_id s).

Definition set_deps (dr : option jsstr) (df : option (jsstr * Z)) (s : State) : State :=
  mkState (debouncedQuery s) (page s) (results s) (numFound s) (loading s) (error s)
    dr df (controller s) (pending s) (issued s) (next_id s).

Definition set_requests (c : option nat) (pd is : list Request) (n : nat) (s : State) : State :=
  mkState (debouncedQuery s) (page s) (results s) (numFound s) (loading s) (error s)
    (deps_reset s) (deps_fetch s) c pd is n.

(** ** Effects *)

Definition abort_one (id : nat) (r : Request) : Request :=
  if Nat.eqb (rid r) id then mkRequest (rid r) (rquery r) (rpage r) (rurl r) true else r.

(** The cleanup [() => controller.abort()] (line 59); the empty-query
    branch returns no cleanup. *)
Definition fetch_cleanup (s : State) : State :=
  match controller s with
  | Some id => set_requests None (map (abort_one id) (pending s)) (issued s) (next_id s) s
  | None => s
  end.

(** [fetchBooks()] up to its first [await]: [setLoading(true)],
    [setError(null)], then in the [try] the URL and
    [fetch(url, { signal })].  When [encodeURIComponent] throws, the
    [catch] sets the [URIError]'s message (it is no [AbortError]) and the
    [finally] clears loading: no request is made.  Either way the effect
    created a new [AbortController] (line 36). *)
Definition fetchBooks (dq : jsstr) (pg : Z) (s : State) : State :=
  let id := next_id s in
  let s1 := set_error None (set_loading true s) in
  match search_url dq pg with
  | Some url =>
      let r := mkRequest id dq pg url false in
      set_requests (Some id) (pending s1 ++ [r]) (issued s1 ++ [r]) (S id) s1
  | None =>
      set_loading false
        (set_error (Some uri_malformed) (set_requests (Some id) (pending s1) (issued s1) (S id) s1))
  end.

(** The body of the fetch effect (lines 28-57), with the values of the
    render it belongs to. *)
Definition fetch_effect (dq : jsstr) (pg : Z) (s : State) : State :=
  if js_eqb dq ""
  then set_error None (set_numFound 0 (set_results [] s))
  else fetchBooks dq pg s.

Definition key_eqb (a b : jsstr * Z) : bool :=
  js_eqb (fst a) (fst b) && Z.eqb (snd a) (snd b).

Definition deps_changed_reset (s : State) : bool :=
  match deps_reset s with
  | Some d => negb (js_eqb d (debouncedQuery s))
  | None => true
  end.

Definition deps_changed_fetch (s : State) : bool :=
  match deps_fetch s with
  | Some k => negb (key_eqb k (debouncedQuery s, page s))
  | None => true
  end.

(** The passive effects of one commit: the cleanups of the effects whose
    dependencies changed, then the effects themselves in declaration
    order, all reading the values of the rendered state. *)
Definition commit (s : State) : State :=
  let dq := debouncedQuery s in
  let pg := page s in
  let run_reset := deps_changed_reset s in
  let run_fetch := deps_changed_fetch s in
  let s1 := if run_fetch then fetch_cleanup s else s in
  let s2 := if run_reset then set_page 1 s1 else s1 in
  let s3 := if run_fetch then fetch_effect dq pg s2 else s2 in
  set_deps (Some dq) (Some (dq, pg)) s3.

Definition needs_commit (s : State) : bool :=
  deps_changed_reset s || deps_changed_fetch s.

(** Re-render and run effects until the dependencies are stable; the
    page reset causes at most one extra render. *)
Fixpoint settle (fuel : nat) (s : State) : State :=
  match fuel with
  | O => s
  | S f => if needs_commit s then settle f (commit s) else s
  end.

Definition render (s : State) : State := settle 3 s.

(** ** Settling a request *)

(** The rest of [fetchBooks] after [await fetch(...)] and
    [await res.json()], including its [catch] and [finally] blocks. *)
Definition fetchBooks_resume (r : Request) (o : Outcome) (s : State) : State :=
  if aborted r then
    (* err.name === 'AbortError': the catch returns, the finally runs *)
    set_loading false s
  else
    match o with
    | NetError msg => set_loading false (set_error (Some msg) s)
    | Response false _ =>
        set_loading false (set_error (Some "Network response was not ok"%string) s)
    | Response true (BNotJson msg) => set_loading false (set_error (Some msg) s)
    | Response true (BJson JNull) =>
        set_loading false
          (set_error (Some "Cannot read properties of null (reading 'docs')"%string) s)
    | Response true (BJson (JObject docs nf)) =>
        (* setResults(data.docs || []); setNumFound(data.numFound || 0) *)
        let s1 := set_results (match docs with Some d => d | None => [] end) s in
        let s2 := set_numFound (match nf with Some n => n | None => 0%N end) s1 in
        set_loading false s2
    end.

Fixpoint find_request (id : nat) (l : list Request) : option Request :=
  match l with
  | [] => None
  | r :: l' => if Nat.eqb (rid r) id then Some r else find_request id l'
  end.

Definition remove_request (id : nat) (l : list Request) : list Request :=
  filter (fun r => negb (Nat.eqb (rid r) id)) l.

(** ** Events *)

Inductive Event :=
| DebounceFire (v : jsstr)      (** the timer of [useDebounced] runs [setV(value)] *)
| ClickPrev                      (** the Prev button (lines 165-176) *)
| ClickNext                      (** the Next button (lines 177-188) *)
| Settle (id : nat) (o : Outcome). (** the network settles request [id] *)

(** [disabled={page === 1}] *)
Definition prev_disabled (s : State) : bool := Z.eqb (page s) 1.

(** [disabled={page === totalPages || totalPages === 0}] *)
Definition next_disabled (s : State) : bool :=
  let tp := totalPages (numFound s) in Z.eqb (page s) tp || Z.eqb tp 0.

(** [(p) => Math.max(1, p - 1)] *)
Definition prev_update (p : Z) : Z := Z.max 1 (p - 1).

(** [(p) => Math.min(totalPages || 1, p + 1)] *)
Definition next_update (tp p : Z) : Z :=
  Z.min (if Z.eqb tp 0 then 1 else tp) (p + 1).

(** One event and the re-render it causes.  The settling of a request
    is an event of its own, [Settle], in every case: in the program the
    fetch of an aborted controller rejects at once, and its [catch] and
    [finally] run as a microtask right after the commit that aborted it,
    before any timer or click.  The model lets any events come in
    between, so its reachable states include every order the program can
    take, and also states the program passes through only within one task
    (an aborted request still pending, with loading left as the commit
    set it). *)
Definition step (s : State) (e : Event) : State :=
  match e with
  | DebounceFire v => render (set_debouncedQuery v s)
  | ClickPrev =>
      if prev_disabled s then s else render (set_page (prev_update (page s)) s)
  | ClickNext =>
      if next_disabled s then s
      else render (set_page (next_update (totalPages (numFound s)) (page s)) s)
  | Settle id o =>
      match find_request id (pending s) with
      | None => s
      | Some r =>
          let s1 := set_requests (controller s) (remove_request id (pending s))
                      (issued s) (next_id s) s in
          render (fetchBooks_resume r o s1)
      end
  end.

Definition run (s : State) (es : list Event) : State := fold_left step es s.

(** The state after mounting: [useState] initial values, then the
    effects of the first commit. *)
Definition init : State :=
  render (mkState "" 1 [] 0 false None None None None [] [] 0).

Definition reachable (s : State) : Prop := exists es, s = run init es.

(** A small session: search "Dune", 45 hits, go to page 2. *)
Definition dune_docs : list Doc :=
  [mkDoc "/works/OL1W" (Some "Dune"%string) (Some ["Frank Herbert"%string]) (Some 1965)
     (Some 12345) None].

Definition ok_json (docs : option (list Doc)) (nf : option N) : Outcome :=
  Response true (BJson (JObject docs nf)).

(** ** The debounce hook *)

(** [useDebounced(value, delay)] (App.js lines 4-11) on a time line:
    [dvalue] is the [value] argument of the last render, [dv] the state
    [v] it returns, and [dtimer] the pending [setTimeout] with its due
    time and the value it will pass to [setV].  The effect re-runs only
    when [value] changes ([delay] is fixed); it first clears the pending
    timer. *)
Module Debounce.

Record DState := mkD {
  dvalue : string;
  dv : string;
  dtimer : option (Z * string)
}.

(** A call [setV(x)] at time [t]. *)
Definition Emission : Type := (Z * string)%type.

(** Timers due by time [t] run before an input arriving at [t]. *)
Definition fire_due (t : Z) (st : DState * list Emission) : DState * list Emission :=
  let (s, log) := st in
  match dtimer s with
  | Some (d, x) => if d <=? t then (mkD (dvalue s) x None, log ++ [(d, x)]) else st
  | None => st
  end.

(** A render of the hook with [value := x] at time [t]. *)
Definition input (delay : Z) (st : DState * list Emission) (ev : Z * string)
  : DState * list Emission :=
  let (t, x) := ev in
  let (s, log) := fire_due t st in
  if String.eqb x (dvalue s) then (s, log)
  else (mkD x (dv s) (Some (t + delay, x)), log).

(** No further input: the pending timer, if any, runs. *)
Definition flush (st : DState * list Emission) : DState * list Emission :=
  let (s, log) := st in
  match dtimer s with
  | Some (d, x) => (mkD (dvalue s) x None, log ++ [(d, x)])
  | None => st
  end.

Definition debounce (delay : Z) (s0 : DState) (inputs : list (Z * string))
  : DState * list Emission :=
  flush (fold_left (input delay) inputs (s0, [])).

(** Each input follows the previous one by less than [delay] and changes
    the value (React re-renders only on a change of [query]). *)
Fixpoint quick (delay : Z) (prev : Z * string) (l : list (Z * string)) : Prop :=
  match l with
  | [] => True
  | (t, x) :: l' => fst prev <= t < fst prev + delay /\ x <> snd prev /\ quick delay (t, x) l'
  end.

(** The hook's state as it is between renders: a pending timer carries
    the latest [value], and without one [v] already equals it. *)
Definition consistent (s : DState) : Prop :=
  match dtimer s with
  | None => dv s = dvalue s
  | Some (_, x) => x = dvalue s
  end.

End Debounce.

(** ** Definitions used by the properties *)

(** After a render the dependencies recorded by both effects are the
    rendered values. *)
Definition settled (s : State) : Prop :=
  deps_reset s = Some (debouncedQuery s) /\ deps_fetch s = Some (debouncedQuery s, page s).

(** The [fetchBooks] calls whose controller is not aborted belong to the
    controller the next cleanup aborts. *)
Definition live_is_current (s : State) : Prop :=
  forall r, In r (pending s) -> aborted r = false -> controller s = Some (rid r).

Ltac commit_cases s :=
  unfold commit, fetch_effect, fetchBooks, fetch_cleanup;
  destruct (deps_changed_fetch s); destruct (deps_changed_reset s);
  repeat match goal with
  | |- context [match controller ?t with _ => _ end] => destruct (controller t)
  | |- context [js_eqb ?a ?b] => destruct (js_eqb a b)
  | |- context [match search_url ?a ?b with _ => _ end] => destruct (search_url a b)
  end; simpl.

(** The invariant of every reachable state. *)
Definition app_inv (s : State) : Prop :=
  settled s /\ live_is_current s /\ page s >= 1.

(** The state of a session in which the response for page 5 reports
    fewer hits than the response for page 1 did. *)
Definition shrunk_session : State :=
  run init [DebounceFire "Dune"; Settle 0 (ok_json (Some dune_docs) (Some 100%N));
            ClickNext; ClickNext; ClickNext; ClickNext;
            Settle 4 (ok_json (Some dune_docs) (Some 60%N))].

(** While a request that was not aborted is pending, no error is shown. *)
Definition live_no_error (s : State) : Prop :=
  forall r, In r (pending s) -> aborted r = false -> error s = None.

(** The outcomes on which [fetchBooks] throws something other than an
    [AbortError], with the [message] of what it throws. *)
Inductive failed_with : Outcome -> string -> Prop :=
| failed_transport m : failed_with (NetError m) m
| failed_status b : failed_with (Response false b) "Network response was not ok"
| failed_syntax m : failed_with (Response true (BNotJson m)) m
| failed_null : failed_with (Response true (BJson JNull))
                  "Cannot read properties of null (reading 'docs')".

Definition dune_search : State := run init [DebounceFire "Dune"].

Definition dune_request : Request :=
  mkRequest 0 "Dune" 1 "https://openlibrary.org/search.json?title=Dune&limit=20&offset=0" false.

(** The idle state reached on an empty query, with log [I] of issued
    requests. *)
Definition idle (I : list Request) (t : State) : Prop :=
  debouncedQuery t = ""%js /\ results t = [] /\ numFound t = 0%N /\
  error t = None /\ issued t = I /\ controller t = None /\
  (forall r, In r (pending t) -> aborted r = true).

(** Search "Dune", then "Dunes" before the first request settled. *)
Definition superseded : State := run init [DebounceFire "Dune"; DebounceFire "Dunes"].

Definition dunes_request : Request :=
  mkRequest 1 "Dunes" 1 "https://openlibrary.org/search.json?title=Dunes&limit=20&offset=0" false.

Definition dunes_docs : list Doc :=
  [mkDoc "/works/OL2W" (Some "Dunes"%string) None None None None].

(** Search "Dune" (45 hits) and go to page 2. *)
Definition page2_session : State :=
  run init [DebounceFire "Dune"; Settle 0 (ok_json (Some dune_docs) (Some 45%N)); ClickNext].

(** A record whose cover id is 0 and which has an ISBN. *)
Definition doc_cover0 : Doc :=
  mkDoc "/works/OL3W" (Some "Dune"%string) None None (Some 0) (Some ["0441013597"%string]).

(** Every pending request that was not aborted is for the key the fetch
    effect last ran with, and for a non-empty query whose URL could be
    built. *)
Definition key_inv (s : State) : Prop :=
  forall r, In r (pending s) -> aborted r = false ->
  deps_fetch s = Some (rquery r, rpage r) /\ rquery r <> ""%js /\
  search_url (rquery r) (rpage r) = Some (rurl r).

(** The controllers of pending requests are distinct and older than
    the next one. *)
Definition id_inv (s : State) : Prop :=
  NoDup (map rid (pending s)) /\
  (forall i, In i (map rid (pending s)) -> (i < next_id s)%nat).

(** Every request issued so far is for a non-empty query and a page of
    at least 1, with the URL built from them. *)
Definition issued_ok (s : State) : Prop :=
  forall r, In r (issued s) ->
  rquery r <> ""%js /\ rpage r >= 1 /\ search_url (rquery r) (rpage r) = Some (rurl r).

Definition ext_inv (s : State) : Prop := key_inv s /\ id_inv s /\ issued_ok s.

(** After a fetch effect ran for a non-empty query that can be encoded,
    a live request for its key is pending. *)
Definition fresh (t : State) : Prop :=
  debouncedQuery t <> ""%js -> encodeURIComponent (debouncedQuery t) <> None ->
  exists r, In r (pending t) /\ aborted r = false /\ deps_fetch t = Some (rquery r, rpage r).

(** The timer of the debounce hook, if any, satisfies [F]. *)
Definition timer_ok (F : Z * string -> Prop) (s : Debounce.DState) : Prop :=
  forall e, Debounce.dtimer s = Some e -> F e.

(** What an empty query shows. *)
Definition empty_ok (s : State) : Prop :=
  debouncedQuery s = ""%js ->
  results s = [] /\ numFound s = 0%N /\ error s = None /\ page s = 1.

(** What a query [encodeURIComponent] rejects shows. *)
Definition malformed_ok (s : State) : Prop :=
  encodeURIComponent (debouncedQuery s) = None ->
  error s = Some uri_malformed /\ loading s = false.

(** A query holding only an unpaired high surrogate (U+D800). *)
Definition lone_surrogate : jsstr := JStr [cu_of_N 55296].

(** * Properties *)

(** ** Sample runs *)

Example url_dune_p3 :
  search_url "Dune Messiah" 3
  = Some "https://openlibrary.org/search.json?title=Dune%20Messiah&limit=20&offset=40"%string.
Proof. reflexivity. Qed.

Example params_dune :
  option_map url_params (search_url "a&b=c" 2)
  = Some [("title", "a%26b%3Dc"); ("limit", "20"); ("offset", "20")]%string.
Proof. reflexivity. Qed.

(** U+00E9, U+20AC and the surrogate pair of U+1F600. *)
Example encode_non_ascii :
  encodeURIComponent (JStr [cu_of_N 233; cu_of_N 8364; cu_of_N 55357; cu_of_N 56832])
  = Some "%C3%A9%E2%82%AC%F0%9F%98%80"%string.
Proof. vm_compute. reflexivity. Qed.

Example encode_lone_surrogate :
  encodeURIComponent lone_surrogate = None /\
  encodeURIComponent (JStr [cu_of_N 56832; cu_of_N 55357]) = None.
Proof. vm_compute. split; reflexivity. Qed.

Example total_45 : totalPages 45 = 3.
Proof. reflexivity. Qed.

Example session_page2 :
  let s := run init [DebounceFire "Dune"; Settle 0 (ok_json (Some dune_docs) (Some 45%N));
                     ClickNext] in
  (page s, map rpage (issued s), loading s, totalPages (numFound s)) = (2, [1; 2], true, 3).
Proof. reflexivity. Qed.

Example typing_dune :
  Debounce.debounce 450 (Debounce.mkD "" "" None)
    [(0, "D"%string); (100, "Du"%string); (200, "Dun"%string); (300, "Dune"%string)]
  = (Debounce.mkD "Dune" "Dune" None, [(750, "Dune"%string)]).
Proof. reflexivity. Qed.

(** ** The commit of effects *)

Lemma commit_debouncedQuery s : debouncedQuery (commit s) = debouncedQuery s.
Proof. commit_cases s; reflexivity. Qed.

Lemma commit_page s :
  page (commit s) = if deps_changed_reset s then 1 else page s.
Proof. commit_cases s; reflexivity. Qed.

Lemma commit_deps_reset s : deps_reset (commit s) = Some (debouncedQuery s).
Proof. commit_cases s; reflexivity. Qed.

Lemma commit_deps_fetch s : deps_fetch (commit s) = Some (debouncedQuery s, page s).
Proof. commit_cases s; reflexivity. Qed.

(** ** JavaScript strings *)

Lemma cu_eqb_eq a b : cu_eqb a b = true <-> a = b.
Proof.
  destruct a as [h l], b as [h' l']; unfold cu_eqb; cbn [cu_hi cu_lo].
  rewrite andb_true_iff, !Ascii.eqb_eq; split.
  - intros [-> ->]; reflexivity.
  - intros H; injection H; auto.
Qed.

Lemma units_eqb_eq a b : units_eqb a b = true <-> a = b.
Proof.
  revert b; induction a as [|x a IH]; intros [|y b]; cbn [units_eqb];
    try (split; congruence).
  rewrite andb_true_iff, cu_eqb_eq, IH; split.
  - intros [-> ->]; reflexivity.
  - intros H; injection H; auto.
Qed.

Lemma js_eqb_eq a b : js_eqb a b = true <-> a = b.
Proof.
  destruct a as [a], b as [b]; unfold js_eqb; cbn [units]; rewrite units_eqb_eq; split.
  - intros ->; reflexivity.
  - intros H; injection H; auto.
Qed.

Lemma js_eqb_refl a : js_eqb a a = true.
Proof. apply js_eqb_eq; reflexivity. Qed.

Lemma js_eqb_neq a b : js_eqb a b = false <-> a <> b.
Proof. rewrite <- js_eqb_eq; destruct (js_eqb a b); split; congruence. Qed.

Lemma js_eqb_spec a b : reflect (a = b) (js_eqb a b).
Proof. apply iff_reflect; symmetry; apply js_eqb_eq. Qed.

Lemma key_eqb_refl k : key_eqb k k = true.
Proof. destruct k; unfold key_eqb; simpl; rewrite js_eqb_refl, Z.eqb_refl; reflexivity. Qed.

Lemma needs_commit_settled s : settled s -> needs_commit s = false.
Proof.
  intros [Hr Hf]; unfold needs_commit, deps_changed_reset, deps_changed_fetch.
  rewrite Hr, Hf, js_eqb_refl, key_eqb_refl; reflexivity.
Qed.

Lemma settle_settled f s : settled s -> settle f s = s.
Proof.
  intros H; destruct f; simpl; [reflexivity|].
  rewrite (needs_commit_settled s H); reflexivity.
Qed.

Lemma render_settled_id s : settled s -> render s = s.
Proof. apply settle_settled. Qed.

Lemma commit_reset_done s : deps_changed_reset (commit s) = false.
Proof.
  unfold deps_changed_reset; rewrite commit_deps_reset, commit_debouncedQuery,
    js_eqb_refl; reflexivity.
Qed.

(** Two commits always reach a settled state. *)
Lemma commit_twice_settled s : settled (commit (commit s)).
Proof.
  split.
  - rewrite commit_deps_reset, !commit_debouncedQuery; reflexivity.
  - rewrite commit_deps_fetch, !commit_debouncedQuery, (commit_page (commit s)),
      commit_reset_done; reflexivity.
Qed.

Lemma settled_of_needs_commit s : needs_commit s = false -> settled s.
Proof.
  unfold needs_commit, deps_changed_reset, deps_changed_fetch; intros E1.
  apply orb_false_iff in E1 as [E3 E4].
  destruct (deps_reset s) as [d|] eqn:Hd; [|discriminate].
  destruct (deps_fetch s) as [[q p]|] eqn:Hf; [|discriminate].
  apply negb_false_iff, js_eqb_eq in E3.
  apply negb_false_iff in E4; unfold key_eqb in E4; simpl in E4.
  apply andb_true_iff in E4 as [E5 E6].
  apply js_eqb_eq in E5; apply Z.eqb_eq in E6; subst.
  split; assumption.
Qed.

Lemma render_is_settled s : settled (render s).
Proof.
  unfold render; cbn [settle].
  destruct (needs_commit s) eqn:E1; [|apply settled_of_needs_commit; exact E1].
  destruct (needs_commit (commit s)) eqn:E2;
    [|apply settled_of_needs_commit; exact E2].
  rewrite (needs_commit_settled _ (commit_twice_settled s)).
  apply commit_twice_settled.
Qed.

Lemma render_keeps_page t :
  deps_reset t = Some (debouncedQuery t) -> page (render t) = page t.
Proof.
  unfold render; generalize 3%nat; intros f; revert t.
  induction f as [|f IH]; intros t Ht; simpl; [reflexivity|].
  destruct (needs_commit t); [|reflexivity].
  rewrite IH.
  - rewrite commit_page; unfold deps_changed_reset; rewrite Ht, js_eqb_refl; reflexivity.
  - rewrite commit_deps_reset, commit_debouncedQuery; reflexivity.
Qed.

Lemma render_page_pos t : page t >= 1 -> page (render t) >= 1.
Proof.
  unfold render; generalize 3%nat; intros f; revert t.
  induction f as [|f IH]; intros t Ht; simpl; [exact Ht|].
  destruct (needs_commit t); [|exact Ht].
  apply IH; rewrite commit_page; destruct (deps_changed_reset t); lia.
Qed.

Lemma render_debouncedQuery t : debouncedQuery (render t) = debouncedQuery t.
Proof.
  unfold render; generalize 3%nat; intros f; revert t.
  induction f as [|f IH]; intros t; simpl; [reflexivity|].
  destruct (needs_commit t); [|reflexivity].
  rewrite IH; apply commit_debouncedQuery.
Qed.

Lemma fetch_cleanup_aborts s :
  live_is_current s ->
  controller (fetch_cleanup s) = None /\
  (forall r, In r (pending (fetch_cleanup s)) -> aborted r = true).
Proof.
  intros H; unfold fetch_cleanup.
  destruct (controller s) as [id|] eqn:Hc; simpl; split; auto.
  - intros r' Hin. apply in_map_iff in Hin as [r [<- Hin]].
    unfold abort_one. destruct (Nat.eqb (rid r) id) eqn:E; [reflexivity|].
    destruct (aborted r) eqn:Ha; [reflexivity|].
    specialize (H r Hin Ha). rewrite Hc in H. injection H as ->.
    rewrite Nat.eqb_refl in E; discriminate.
  - intros r Hin. destruct (aborted r) eqn:Ha; [reflexivity|].
    specialize (H r Hin Ha); congruence.
Qed.

Lemma fetch_effect_live dq pg t :
  controller t = None -> (forall r, In r (pending t) -> aborted r = true) ->
  live_is_current (fetch_effect dq pg t).
Proof.
  intros Hc Ha r Hin Hab. unfold fetch_effect in *.
  destruct (js_eqb dq ""%js); simpl in *.
  - rewrite (Ha r Hin) in Hab; discriminate.
  - unfold fetchBooks in *; destruct (search_url dq pg); simpl in *.
    + apply in_app_or in Hin as [Hin|[<-|[]]].
      * rewrite (Ha r Hin) in Hab; discriminate.
      * reflexivity.
    + rewrite (Ha r Hin) in Hab; discriminate.
Qed.

Lemma commit_live s : live_is_current s -> live_is_current (commit s).
Proof.
  intros H. destruct (fetch_cleanup_aborts s H) as [Hc Ha].
  unfold commit.
  destruct (deps_changed_fetch s), (deps_changed_reset s);
    intros r Hin Hab; simpl in *.
  - apply (fetch_effect_live _ _ (set_page 1 (fetch_cleanup s))); assumption.
  - apply (fetch_effect_live _ _ (fetch_cleanup s)); assumption.
  - apply H; assumption.
  - apply H; assumption.
Qed.

Lemma render_live t : live_is_current t -> live_is_current (render t).
Proof.
  unfold render; generalize 3%nat; intros f; revert t.
  induction f as [|f IH]; intros t Ht; simpl; [exact Ht|].
  destruct (needs_commit t); [|exact Ht].
  apply IH, commit_live, Ht.
Qed.

Lemma totalPages_nonneg n : 0 <= totalPages n.
Proof.
  unfold totalPages, perPage.
  assert ((- Z.of_N n) / 20 <= 0) by (apply Z.div_le_upper_bound; lia). lia.
Qed.

Lemma prev_update_pos p : prev_update p >= 1.
Proof. unfold prev_update; lia. Qed.

Lemma next_update_pos tp p : 0 <= tp -> p >= 1 -> next_update tp p >= 1.
Proof.
  unfold next_update; intros H1 H2.
  destruct (Z.eqb_spec tp 0); lia.
Qed.

Lemma resume_frame r o t :
  debouncedQuery (fetchBooks_resume r o t) = debouncedQuery t /\
  page (fetchBooks_resume r o t) = page t /\
  deps_reset (fetchBooks_resume r o t) = deps_reset t /\
  deps_fetch (fetchBooks_resume r o t) = deps_fetch t /\
  controller (fetchBooks_resume r o t) = controller t /\
  pending (fetchBooks_resume r o t) = pending t /\
  issued (fetchBooks_resume r o t) = issued t.
Proof.
  unfold fetchBooks_resume.
  destruct (aborted r); [repeat split|].
  destruct o as [m|[|] [[d n|]|m]]; repeat split.
Qed.

Lemma step_inv s e : app_inv s -> app_inv (step s e).
Proof.
  intros (Hs & Hl & Hp). destruct e as [v| | |id o]; simpl.
  - split; [apply render_is_settled|split].
    + apply render_live. intros r Hin Hab; apply Hl; assumption.
    + apply render_page_pos; exact Hp.
  - destruct (prev_disabled s); [split; auto|].
    split; [apply render_is_settled|split].
    + apply render_live. intros r Hin Hab; apply Hl; assumption.
    + apply render_page_pos, prev_update_pos.
  - destruct (next_disabled s); [split; auto|].
    split; [apply render_is_settled|split].
    + apply render_live. intros r Hin Hab; apply Hl; assumption.
    + apply render_page_pos, next_update_pos; [apply totalPages_nonneg|exact Hp].
  - destruct (find_request id (pending s)) as [r|]; [|split; auto].
    set (t := set_requests (controller s) (remove_request id (pending s))
                (issued s) (next_id s) s).
    destruct (resume_frame r o t) as (E1 & E2 & E3 & E4 & E5 & E6 & E7).
    split; [apply render_is_settled|split].
    + apply render_live. intros r' Hin Hab.
      rewrite E5; rewrite E6 in Hin. simpl in *.
      unfold remove_request in Hin; apply filter_In in Hin as [Hin _].
      apply Hl; assumption.
    + apply render_page_pos; rewrite E2; exact Hp.
Qed.

Lemma run_app_inv es s : app_inv s -> app_inv (run s es).
Proof.
  unfold run; revert s; induction es as [|e es IH]; intros s H; simpl; auto.
  apply IH, step_inv, H.
Qed.

Lemma init_inv : app_inv init.
Proof.
  split; [apply render_is_settled|split].
  - apply render_live. intros r [].
  - apply render_page_pos; simpl; lia.
Qed.

Lemma reachable_inv s : reachable s -> app_inv s.
Proof. intros [es ->]; apply run_app_inv, init_inv. Qed.

Lemma reachable_step s e : reachable s -> reachable (step s e).
Proof.
  intros [es ->]; exists (es ++ [e]); unfold run; rewrite fold_left_app; reflexivity.
Qed.

Lemma reachable_page_pos s : reachable s -> page s >= 1.
Proof. intros H; apply reachable_inv in H as (_ & _ & H); exact H. Qed.

Lemma totalPages_ceil n :
  20 * (totalPages n - 1) < Z.of_N n <= 20 * totalPages n.
Proof.
  unfold totalPages, perPage.
  pose proof (Z.div_mod (- Z.of_N n) 20 ltac:(lia)).
  pose proof (Z.mod_pos_bound (- Z.of_N n) 20 ltac:(lia)).
  lia.
Qed.

Lemma step_set_page_page s p :
  settled s -> page (render (set_page p s)) = p.
Proof.
  intros [Hr _]. rewrite render_keeps_page; [reflexivity|]. exact Hr.
Qed.

(** ** C10 *)

(** C10 (amended): in every reachable state PageNumber is at least 1.
    It starts at 1, the query-change reset sets it to 1, Prev sets it to
    [Math.max(1, p - 1)] and Next to [Math.min(totalPages || 1, p + 1)],
    which is at least 1 because [totalPages] is never negative. *)
Theorem C10_page_at_least_one s : reachable s -> 1 <= page s.
Proof. intros H; apply reachable_page_pos in H; lia. Qed.

Lemma C10_page_at_least_one_witness :
  reachable (step page2_session ClickPrev) /\ 1 <= page (step page2_session ClickPrev) /\
  reachable (step page2_session (DebounceFire "Dunes")) /\
  1 <= page (step page2_session (DebounceFire "Dunes")) /\
  reachable (step shrunk_session ClickNext) /\ 1 <= page (step shrunk_session ClickNext).
Proof.
  assert (Hr : reachable page2_session)
    by (exists [DebounceFire "Dune"; Settle 0 (ok_json (Some dune_docs) (Some 45%N)); ClickNext];
        reflexivity).
  assert (Hs : reachable shrunk_session) by (eexists; reflexivity).
  pose proof (reachable_step _ ClickPrev Hr) as H1.
  pose proof (reachable_step _ (DebounceFire "Dunes") Hr) as H2.
  pose proof (reachable_step _ ClickNext Hs) as H3.
  split; [exact H1|]. split; [exact (C10_page_at_least_one _ H1)|].
  split; [exact H2|]. split; [exact (C10_page_at_least_one _ H2)|].
  split; [exact H3|]. exact (C10_page_at_least_one _ H3).
Defined.

(** C10 (counterexample): the Next handler does not only increase the
    page: on page 5 with 60 hits (3 pages) Next is enabled and moves to
    page 3. *)
Lemma C10_next_lowers_page :
  ~ (forall s, reachable s -> page s <= page (step s ClickNext)).
Proof.
  intros H. specialize (H shrunk_session).
  assert (Hr : reachable shrunk_session) by (eexists; reflexivity).
  specialize (H Hr). vm_compute in H. apply H; reflexivity.
Qed.

(** ** C4 *)

(** C4: [totalPages] is the ceiling of numFound / 20 and the page count
    shown is at least 1; Prev is disabled (a no-op) exactly when
    PageNumber is 1 and otherwise moves to PageNumber - 1, never below 1;
    Next is disabled (a no-op) exactly when PageNumber equals totalPages
    or totalPages is 0 and otherwise moves to
    [min(totalPages, PageNumber + 1)]. *)
Theorem C4_pagination s :
  reachable s ->
  let n := numFound s in
  let tp := totalPages n in
  (20 * (tp - 1) < Z.of_N n <= 20 * tp) /\
  1 <= shownPages n /\
  (prev_disabled s = true <-> page s = 1) /\
  (page s = 1 -> step s ClickPrev = s) /\
  (page s <> 1 -> page (step s ClickPrev) = Z.max 1 (page s - 1)
                   /\ page (step s ClickPrev) = page s - 1) /\
  (next_disabled s = true <-> page s = tp \/ tp = 0) /\
  (page s = tp \/ tp = 0 -> step s ClickNext = s) /\
  (page s <> tp -> tp <> 0 -> page (step s ClickNext) = Z.min tp (page s + 1)).
Proof.
  intros H n tp.
  destruct (reachable_inv s H) as (Hs & _ & Hp).
  assert (Hprev : prev_disabled s = true <-> page s = 1)
    by (unfold prev_disabled; apply Z.eqb_eq).
  assert (Hnext : next_disabled s = true <-> page s = tp \/ tp = 0).
  { unfold next_disabled; fold n tp.
    rewrite orb_true_iff, !Z.eqb_eq; tauto. }
  split; [apply totalPages_ceil|].
  split; [unfold shownPages; lia|].
  split; [exact Hprev|].
  split; [intros E; apply Hprev in E; simpl; rewrite E; reflexivity|].
  split.
  { intros E. assert (prev_disabled s = false) as D.
    { apply not_true_is_false; intros D; apply E, Hprev, D. }
    simpl; rewrite D, step_set_page_page by exact Hs.
    unfold prev_update; lia. }
  split; [exact Hnext|].
  split; [intros E; apply Hnext in E; simpl; rewrite E; reflexivity|].
  intros E1 E2. assert (next_disabled s = false) as D.
  { apply not_true_is_false; intros D; apply Hnext in D; tauto. }
  simpl; rewrite D, step_set_page_page by exact Hs.
  unfold next_update. fold n tp. apply Z.eqb_neq in E2; rewrite E2; reflexivity.
Qed.

Lemma C4_pagination_witness :
  reachable page2_session /\
  page (step page2_session ClickPrev) = Z.max 1 (page page2_session - 1) /\
  page (step page2_session ClickNext)
  = Z.min (totalPages (numFound page2_session)) (page page2_session + 1) /\
  reachable (step page2_session ClickNext) /\
  step (step page2_session ClickNext) ClickNext = step page2_session ClickNext.
Proof.
  assert (Hr : reachable page2_session)
    by (exists [DebounceFire "Dune"; Settle 0 (ok_json (Some dune_docs) (Some 45%N)); ClickNext];
        reflexivity).
  pose proof (reachable_step _ ClickNext Hr) as Hr3.
  pose proof (C4_pagination page2_session Hr) as H. cbv zeta in H.
  destruct H as (_ & _ & _ & _ & Hprev & _ & _ & Hnext).
  pose proof (C4_pagination _ Hr3) as H3. cbv zeta in H3.
  destruct H3 as (_ & _ & _ & _ & _ & _ & Hstay & _).
  split; [exact Hr|].
  split; [exact (proj1 (Hprev ltac:(vm_compute; discriminate)))|].
  split; [exact (Hnext ltac:(vm_compute; discriminate) ltac:(vm_compute; discriminate))|].
  split; [exact Hr3|].
  apply Hstay; left; vm_compute; reflexivity.
Defined.

(** ** Strings and the request URL *)

Lemma str_app_assoc a b c : ((a ++ b) ++ c = a ++ (b ++ c))%string.
Proof. induction a as [|x a IH]; simpl; [reflexivity|rewrite IH; reflexivity]. Qed.

Lemma str_app_nil a : (a ++ EmptyString = a)%string.
Proof. induction a as [|x a IH]; simpl; [reflexivity|rewrite IH; reflexivity]. Qed.

Lemma has_char_app c a b : has_char c (a ++ b) = has_char c a || has_char c b.
Proof. induction a as [|x a IH]; simpl; [reflexivity|rewrite IH, orb_assoc; reflexivity]. Qed.

Lemma split_on_nonempty c s : split_on c s <> [].
Proof.
  induction s as [|x s IH]; simpl; [discriminate|].
  destruct (Ascii.eqb x c); [discriminate|].
  destruct (split_on c s); discriminate.
Qed.

Lemma split_on_app c a b :
  has_char c a = false ->
  split_on c (a ++ b) = match split_on c b with
                        | r :: rs => (a ++ r)%string :: rs
                        | [] => [a]
                        end.
Proof.
  induction a as [|x a IH]; simpl; intros H.
  - pose proof (split_on_nonempty c b); destruct (split_on c b); [congruence|reflexivity].
  - apply orb_false_iff in H as [H1 H2]. rewrite H1, IH by exact H2.
    destruct (split_on c b); reflexivity.
Qed.

Lemma split_on_app_sep c a b :
  has_char c a = false -> split_on c (a ++ String c b) = a :: split_on c b.
Proof.
  intros H; rewrite split_on_app by exact H; simpl.
  rewrite Ascii.eqb_refl, str_app_nil; reflexivity.
Qed.

Lemma split_on_nochar c a : has_char c a = false -> split_on c a = [a].
Proof.
  intros H; rewrite <- (str_app_nil a), split_on_app by exact H; reflexivity.
Qed.

Lemma split_first_app_sep c a b :
  has_char c a = false -> split_first c (a ++ String c b) = (a, b).
Proof.
  induction a as [|x a IH]; simpl; intros H; [rewrite Ascii.eqb_refl; reflexivity|].
  apply orb_false_iff in H as [H1 H2]. rewrite H1, IH by exact H2; reflexivity.
Qed.

Lemma url_params_shape pre e l o :
  has_char "?" pre = false -> has_char "&" e = false -> has_char "&" l = false ->
  has_char "&" o = false ->
  url_params (pre ++ String "?" ("title=" ++ e ++ "&limit=" ++ l ++ "&offset=" ++ o))
  = [("title", e); ("limit", l); ("offset", o)]%string.
Proof.
  intros Hp He Hl Ho. unfold url_params.
  rewrite split_first_app_sep by exact Hp; cbn [snd].
  replace ("title=" ++ e ++ "&limit=" ++ l ++ "&offset=" ++ o)%string
    with (("title=" ++ e) ++ String "&" (("limit=" ++ l) ++ String "&" ("offset=" ++ o)))%string
    by (rewrite !str_app_assoc; reflexivity).
  rewrite split_on_app_sep by (rewrite has_char_app; simpl; exact He).
  rewrite split_on_app_sep by (simpl; exact Hl).
  rewrite split_on_nochar by (simpl; exact Ho).
  reflexivity.
Qed.

Lemma digit_no_amp k : (k < 10)%N -> Ascii.eqb (ascii_of_N (48 + k)) "&" = false.
Proof.
  intros H.
  assert (k = 0 \/ k = 1 \/ k = 2 \/ k = 3 \/ k = 4 \/ k = 5 \/ k = 6 \/ k = 7
          \/ k = 8 \/ k = 9)%N as E by lia.
  repeat (destruct E as [->|E]; [reflexivity|]); subst; reflexivity.
Qed.

Lemma hex_digit_no_amp d : (d < 16)%N -> Ascii.eqb (hex_digit d) "&" = false.
Proof.
  intros H; unfold hex_digit.
  destruct (N.ltb_spec d 10); [apply digit_no_amp; exact H0|].
  assert (d = 10 \/ d = 11 \/ d = 12 \/ d = 13 \/ d = 14 \/ d = 15)%N as E by lia.
  repeat (destruct E as [->|E]; [reflexivity|]); subst; reflexivity.
Qed.

Lemma percent_byte_no_amp b : (b < 256)%N -> has_char "&" (percent_byte b) = false.
Proof.
  intros H; unfold percent_byte; simpl.
  rewrite !hex_digit_no_amp; [reflexivity| |].
  - apply N.mod_lt; discriminate.
  - apply N.Div0.div_lt_upper_bound; lia.
Qed.

Lemma percent_bytes_no_amp bs :
  Forall (fun b => (b < 256)%N) bs -> has_char "&" (percent_bytes bs) = false.
Proof.
  unfold percent_bytes; induction 1 as [|b bs Hb _ IH]; [reflexivity|].
  cbn [fold_right]; rewrite has_char_app, percent_byte_no_amp, IH; auto.
Qed.

Lemma utf8_bytes cp : (cp < 1114112)%N -> Forall (fun b => (b < 256)%N) (utf8 cp).
Proof.
  intros H; unfold utf8.
  pose proof (N.mod_lt cp 64 ltac:(discriminate)).
  pose proof (N.mod_lt (cp / 64) 64 ltac:(discriminate)).
  pose proof (N.mod_lt (cp / 4096) 64 ltac:(discriminate)).
  assert (cp < 2048 -> cp / 64 < 32)%N by (intros; apply N.Div0.div_lt_upper_bound; lia).
  assert (cp < 65536 -> cp / 4096 < 16)%N by (intros; apply N.Div0.div_lt_upper_bound; lia).
  assert (cp / 262144 < 16)%N by (apply N.Div0.div_lt_upper_bound; lia).
  destruct (N.ltb_spec cp 128); [repeat (constructor; [lia|]); constructor|].
  destruct (N.ltb_spec cp 2048); [repeat (constructor; [lia|]); constructor|].
  destruct (N.ltb_spec cp 65536); repeat (constructor; [lia|]); constructor.
Qed.

Lemma cu_val_bound c : (cu_val c < 65536)%N.
Proof.
  destruct c as [h l]; unfold cu_val; cbn [cu_hi cu_lo].
  pose proof (N_ascii_bounded h); pose proof (N_ascii_bounded l); lia.
Qed.

Lemma encode_unit_no_amp u : (u < 65536)%N -> has_char "&" (encode_unit u) = false.
Proof.
  intros H; unfold encode_unit.
  destruct ((u <? 128)%N && unreserved (ascii_of_N u)) eqn:U.
  - apply andb_true_iff in U as [_ U]. cbn [has_char].
    destruct (Ascii.eqb_spec (ascii_of_N u) "&") as [E|_]; [rewrite E in U; discriminate U|].
    reflexivity.
  - apply percent_bytes_no_amp, utf8_bytes; lia.
Qed.

Lemma surrogate_bounds u : is_high_surrogate u = true -> (55296 <= u <= 56319)%N.
Proof. unfold is_high_surrogate; rewrite andb_true_iff, !N.leb_le; lia. Qed.

Lemma low_surrogate_bounds u : is_low_surrogate u = true -> (56320 <= u <= 57343)%N.
Proof. unfold is_low_surrogate; rewrite andb_true_iff, !N.leb_le; lia. Qed.

Lemma encode_units_no_amp n : forall l e,
  (List.length l <= n)%nat -> encode_units l = Some e -> has_char "&" e = false.
Proof.
  induction n as [|n IH]; intros [|c l] e Hlen H; cbn [encode_units] in H;
    try (injection H as <-; reflexivity); cbn [List.length] in Hlen; [lia|].
  destruct (is_low_surrogate (cu_val c)); [discriminate|].
  destruct (is_high_surrogate (cu_val c)) eqn:Hh.
  - destruct l as [|c2 l]; [discriminate|].
    destruct (is_low_surrogate (cu_val c2)) eqn:Hv; [|discriminate].
    destruct (encode_units l) as [e'|] eqn:E; [|discriminate].
    injection H as <-. cbn [List.length] in Hlen.
    apply surrogate_bounds in Hh; apply low_surrogate_bounds in Hv.
    rewrite has_char_app, percent_bytes_no_amp, (IH l e') by (auto; lia || apply utf8_bytes; lia).
    reflexivity.
  - destruct (encode_units l) as [e'|] eqn:E; [|discriminate].
    injection H as <-.
    rewrite has_char_app, encode_unit_no_amp, (IH l e'); auto; [lia|apply cu_val_bound].
Qed.

Lemma encodeURIComponent_no_amp q e :
  encodeURIComponent q = Some e -> has_char "&" e = false.
Proof. apply (encode_units_no_amp (List.length (units q))); auto. Qed.

Lemma digits_no_amp f n acc :
  has_char "&" acc = false -> has_char "&" (digits f n acc) = false.
Proof.
  revert n acc; induction f as [|f IH]; intros n acc H; cbn [digits]; [exact H|].
  assert (has_char "&" (String (ascii_of_N (48 + n mod 10)) acc) = false).
  { cbn [has_char]; rewrite digit_no_amp, H; [reflexivity|apply N.mod_lt; discriminate]. }
  destruct (N.div n 10 =? 0)%N; [assumption|apply IH; assumption].
Qed.

Lemma Z_to_dec_no_amp z : has_char "&" (Z_to_dec z) = false.
Proof.
  destruct z as [|p|p]; unfold Z_to_dec, N_to_dec; [reflexivity| |].
  - apply digits_no_amp; reflexivity.
  - cbn [has_char]; rewrite digits_no_amp by reflexivity; reflexivity.
Qed.

Lemma search_url_params q p e :
  encodeURIComponent q = Some e ->
  url_params (search_url_enc e p)
  = [("title", e); ("limit", "20"); ("offset", Z_to_dec ((p - 1) * 20))]%string.
Proof.
  intros He. unfold search_url_enc.
  change ("https://openlibrary.org/search.json?title=" ++ ?x)%string
    with ("https://openlibrary.org/search.json" ++ String "?" ("title=" ++ x))%string.
  apply url_params_shape; [reflexivity|apply (encodeURIComponent_no_amp q e He)|reflexivity|].
  apply Z_to_dec_no_amp.
Qed.

(** ** Settling a live request *)

Lemma find_request_some id l r :
  find_request id l = Some r -> In r l /\ rid r = id.
Proof.
  induction l as [|x l IH]; simpl; [discriminate|].
  destruct (Nat.eqb_spec (rid x) id) as [E|E].
  - intros H; injection H as <-; auto.
  - intros H; destruct (IH H); auto.
Qed.

Lemma fetch_effect_no_error dq pg t :
  (forall r, In r (pending t) -> aborted r = true) ->
  live_no_error (fetch_effect dq pg t).
Proof.
  intros Ha r Hin Hab. unfold fetch_effect in *.
  destruct (js_eqb dq ""%js); simpl in *.
  - rewrite (Ha r Hin) in Hab; discriminate.
  - unfold fetchBooks in *; destruct (search_url dq pg); simpl in *; [reflexivity|].
    rewrite (Ha r Hin) in Hab; discriminate.
Qed.

Lemma commit_no_error s :
  live_is_current s -> live_no_error s -> live_no_error (commit s).
Proof.
  intros H He. destruct (fetch_cleanup_aborts s H) as [Hc Ha].
  unfold commit.
  destruct (deps_changed_fetch s), (deps_changed_reset s);
    intros r Hin Hab; simpl in *.
  - exact (fetch_effect_no_error _ _ (set_page 1 (fetch_cleanup s)) Ha r Hin Hab).
  - exact (fetch_effect_no_error _ _ (fetch_cleanup s) Ha r Hin Hab).
  - apply (He r); assumption.
  - apply (He r); assumption.
Qed.

Lemma render_no_error t :
  live_is_current t -> live_no_error t -> live_no_error (render t).
Proof.
  unfold render; generalize 3%nat; intros f; revert t.
  induction f as [|f IH]; intros t Hl He; simpl; [exact He|].
  destruct (needs_commit t); [|exact He].
  apply IH; [apply commit_live, Hl|apply commit_no_error; assumption].
Qed.

Lemma step_no_error s e :
  app_inv s -> live_no_error s -> live_no_error (step s e).
Proof.
  intros (Hs & Hl & Hp) He.
  destruct e as [v| | |id o]; simpl.
  - apply render_no_error; intros r Hin Hab; [apply Hl|apply (He r)]; assumption.
  - destruct (prev_disabled s); [exact He|].
    apply render_no_error; intros r Hin Hab; [apply Hl|apply (He r)]; assumption.
  - destruct (next_disabled s); [exact He|].
    apply render_no_error; intros r Hin Hab; [apply Hl|apply (He r)]; assumption.
  - destruct (find_request id (pending s)) as [r|] eqn:F; [|exact He].
    apply find_request_some in F as [Fin Fid].
    set (t := set_requests (controller s) (remove_request id (pending s))
                (issued s) (next_id s) s).
    destruct (resume_frame r o t) as (E1 & E2 & E3 & E4 & E5 & E6 & E7).
    apply render_no_error.
    + intros r' Hin Hab. rewrite E5; rewrite E6 in Hin. simpl in *.
      unfold remove_request in Hin; apply filter_In in Hin as [Hin _].
      apply Hl; assumption.
    + intros r' Hin Hab. rewrite E6 in Hin; simpl in Hin.
      unfold remove_request in Hin; apply filter_In in Hin as [Hin Hne].
      destruct (aborted r) eqn:Ar.
      * unfold fetchBooks_resume; rewrite Ar; simpl. apply (He r'); assumption.
      * exfalso. pose proof (Hl r Fin Ar) as C1. pose proof (Hl r' Hin Hab) as C2.
        rewrite C1 in C2; injection C2 as C2.
        rewrite <- C2, Fid, Nat.eqb_refl in Hne; discriminate.
Qed.

Lemma reachable_no_error s : reachable s -> live_no_error s.
Proof.
  intros [es ->]. unfold run.
  assert (H : app_inv init /\ live_no_error init).
  { split; [apply init_inv|apply render_no_error; intros r []]. }
  revert H; generalize init; induction es as [|e es IH]; intros s0 [H1 H2]; simpl; [exact H2|].
  apply IH; split; [apply step_inv, H1|apply step_no_error; assumption].
Qed.

Lemma resume_settled r o t : settled t -> settled (fetchBooks_resume r o t).
Proof.
  intros [Hr Hf]. destruct (resume_frame r o t) as (E1 & E2 & E3 & E4 & _).
  split; [rewrite E3, E1|rewrite E4, E1, E2]; assumption.
Qed.

Lemma step_settle_found s id r o :
  app_inv s -> find_request id (pending s) = Some r ->
  step s (Settle id o)
  = fetchBooks_resume r o (set_requests (controller s) (remove_request id (pending s))
                             (issued s) (next_id s) s).
Proof.
  intros (Hs & _ & _) F; simpl; rewrite F.
  apply render_settled_id, resume_settled. exact Hs.
Qed.

(** ** C3 *)

(** C3 (counterexample): the query U+D800 is not empty, yet no request
    is issued for it: [encodeURIComponent] throws a [URIError] inside the
    [try], so the error becomes "URI malformed" and loading is cleared. *)
Lemma C3_lone_surrogate_no_request :
  let s := run init [DebounceFire lone_surrogate] in
  debouncedQuery s = lone_surrogate /\ lone_surrogate <> ""%js /\
  issued s = [] /\ pending s = [] /\ error s = Some uri_malformed /\ loading s = false.
Proof. vm_compute. repeat split; discriminate. Qed.

(** C3 (amended): for a non-empty query q and a page p, when q can be
    URL-encoded (it has no unpaired surrogate) the fetch effect issues
    exactly one request, whose URL has the parameters title (the encoded
    query), limit 20 and offset (p - 1) * 20; when it cannot, it issues
    none, sets error to "URI malformed" and clears loading.  When a live
    request settles with a 2xx JSON object, results becomes its [docs]
    (the empty list if absent), numFound its [numFound] (0 if absent),
    error is cleared and so is loading. *)
Theorem C3_request_and_success q p s :
  q <> ""%js ->
  (forall e, encodeURIComponent q = Some e ->
     let r := mkRequest (next_id s) q p (search_url_enc e p) false in
     issued (fetch_effect q p s) = issued s ++ [r] /\
     pending (fetch_effect q p s) = pending s ++ [r] /\
     url_params (rurl r)
     = [("title", e); ("limit", "20"); ("offset", Z_to_dec ((p - 1) * 20))]%string) /\
  (encodeURIComponent q = None ->
     issued (fetch_effect q p s) = issued s /\ pending (fetch_effect q p s) = pending s /\
     error (fetch_effect q p s) = Some uri_malformed /\ loading (fetch_effect q p s) = false) /\
  (forall t id r' docs nf,
     reachable t -> find_request id (pending t) = Some r' -> aborted r' = false ->
     let t' := step t (Settle id (ok_json docs nf)) in
     results t' = match docs with Some d => d | None => [] end /\
     numFound t' = match nf with Some n => n | None => 0%N end /\
     error t' = None /\ loading t' = false).
Proof.
  intros Hq. unfold fetch_effect.
  destruct (js_eqb_spec q ""%js) as [E|_]; [contradiction|].
  unfold fetchBooks, search_url.
  split; [|split].
  - intros e He; cbv zeta; rewrite He.
    split; [reflexivity|]. split; [reflexivity|]. exact (search_url_params q p e He).
  - intros He; rewrite He; repeat split.
  - intros t id r' docs nf Ht F A; cbv zeta.
    rewrite (step_settle_found t id r' _ (reachable_inv t Ht) F).
    unfold fetchBooks_resume, ok_json; rewrite A; simpl.
    split; [reflexivity|split; [reflexivity|split; [|reflexivity]]].
    exact (reachable_no_error t Ht r' (proj1 (find_request_some _ _ _ F)) A).
Qed.

Lemma C3_request_and_success_witness :
  "Dune"%js <> ""%js /\ encodeURIComponent "Dune" = Some "Dune"%string /\
  issued (fetch_effect "Dune" 1 init)
  = issued init ++ [mkRequest (next_id init) "Dune" 1 (search_url_enc "Dune" 1) false] /\
  lone_surrogate <> ""%js /\ encodeURIComponent lone_surrogate = None /\
  error (fetch_effect lone_surrogate 1 init) = Some uri_malformed /\
  reachable dune_search /\ find_request 0 (pending dune_search) = Some dune_request /\
  aborted dune_request = false /\
  results (step dune_search (Settle 0 (ok_json (Some dune_docs) (Some 45%N)))) = dune_docs.
Proof.
  assert (Hr : reachable dune_search) by (exists [DebounceFire "Dune"]; reflexivity).
  assert (F : find_request 0 (pending dune_search) = Some dune_request) by reflexivity.
  assert (E1 : encodeURIComponent "Dune" = Some "Dune"%string) by reflexivity.
  assert (E2 : encodeURIComponent lone_surrogate = None) by reflexivity.
  destruct (C3_request_and_success "Dune" 1 init ltac:(discriminate)) as [H1 [_ H3]].
  destruct (C3_request_and_success lone_surrogate 1 init ltac:(discriminate)) as [_ [H2 _]].
  split; [discriminate|]. split; [exact E1|]. split; [pose proof (H1 _ E1) as X; cbv zeta in X; exact (proj1 X)|].
  split; [discriminate|]. split; [exact E2|]. split; [exact (proj1 (proj2 (proj2 (H2 E2))))|].
  split; [exact Hr|]. split; [exact F|]. split; [reflexivity|].
  exact (proj1 (H3 dune_search 0%nat dune_request (Some dune_docs) (Some 45%N) Hr F eq_refl)).
Defined.

(** ** C5 and C6 *)

(** C6: when a request that was not cancelled fails (transport error,
    non-2xx status, malformed body), error becomes the message of the
    failure and loading is cleared, while results and numFound keep
    their values. *)
Theorem C6_failure_keeps_results s id r o msg :
  reachable s -> find_request id (pending s) = Some r -> aborted r = false ->
  failed_with o msg ->
  let s' := step s (Settle id o) in
  error s' = Some msg /\ loading s' = false /\
  results s' = results s /\ numFound s' = numFound s.
Proof.
  intros Hs F A Fw; cbv zeta.
  rewrite (step_settle_found s id r o (reachable_inv s Hs) F).
  unfold fetchBooks_resume; rewrite A.
  destruct Fw; simpl; repeat split.
Qed.

Lemma C6_failure_keeps_results_witness :
  reachable dune_search /\ find_request 0 (pending dune_search) = Some dune_request /\
  error (step dune_search (Settle 0 (NetError "Failed to fetch")))
  = Some "Failed to fetch"%string.
Proof.
  assert (Hr : reachable dune_search) by (exists [DebounceFire "Dune"]; reflexivity).
  assert (Hf : find_request 0 (pending dune_search) = Some dune_request)
    by (vm_compute; reflexivity).
  split; [exact Hr|split; [exact Hf|]].
  pose proof (C6_failure_keeps_results dune_search 0 dune_request _ _ Hr Hf
                eq_refl (failed_transport "Failed to fetch")) as H.
  cbv zeta in H. destruct H as [H _]. exact H.
Defined.

(** C5 (counterexample): a 2xx JSON response without [docs] is not a
    failure: no error is set, results is empty and loading is cleared. *)
Lemma C5_missing_docs_is_success :
  let s := step dune_search (Settle 0 (ok_json None (Some 5%N))) in
  error s = None /\ results s = [] /\ numFound s = 5%N /\ loading s = false.
Proof. vm_compute; repeat split. Qed.

(** C5 (amended): a non-2xx status or a body that is not JSON makes a
    live request fail (error set, loading cleared); a 2xx JSON object
    without [docs] succeeds with an empty result list, numFound taken
    from the response (0 if absent) and no error. *)
Theorem C5_response_shape s id r :
  reachable s -> find_request id (pending s) = Some r -> aborted r = false ->
  (forall b, let s' := step s (Settle id (Response false b)) in
     error s' = Some "Network response was not ok"%string /\ loading s' = false) /\
  (forall m, let s' := step s (Settle id (Response true (BNotJson m))) in
     error s' = Some m /\ loading s' = false) /\
  (forall nf, let s' := step s (Settle id (ok_json None nf)) in
     error s' = None /\ results s' = [] /\
     numFound s' = match nf with Some n => n | None => 0%N end /\ loading s' = false).
Proof.
  intros Hs F A. pose proof (reachable_inv s Hs) as I.
  pose proof (reachable_no_error s Hs r (proj1 (find_request_some _ _ _ F)) A) as E.
  split; [|split]; intros x; rewrite (step_settle_found s id r _ I F);
    unfold fetchBooks_resume, ok_json; rewrite A; simpl; repeat split.
  exact E.
Qed.

Lemma C5_response_shape_witness :
  reachable dune_search /\
  error (step dune_search (Settle 0 (Response false (BJson JNull))))
  = Some "Network response was not ok"%string.
Proof.
  assert (Hr : reachable dune_search) by (exists [DebounceFire "Dune"]; reflexivity).
  split; [exact Hr|].
  pose proof (C5_response_shape dune_search 0 dune_request Hr
                ltac:(vm_compute; reflexivity) eq_refl) as H.
  cbv zeta in H. destruct H as [H _]. exact (proj1 (H (BJson JNull))).
Defined.

(** ** C7 *)

Lemma commit_idle I t : idle I t -> idle I (commit t).
Proof.
  intros (Hq & Hr & Hn & He & Hi & Hc & Ha).
  unfold commit, fetch_cleanup, fetch_effect. rewrite Hc, Hq; simpl.
  destruct (deps_changed_fetch t), (deps_changed_reset t);
    unfold idle; simpl; repeat split; auto.
Qed.

Lemma settle_idle I f t : idle I t -> idle I (settle f t).
Proof.
  revert t; induction f as [|f IH]; intros t H; simpl; [exact H|].
  destruct (needs_commit t); [apply IH, commit_idle, H|exact H].
Qed.

(** C7: when the debounced query becomes empty, results, numFound and
    error are cleared at once, no request is issued, and every request
    still pending is cancelled. *)
Theorem C7_empty_query_idle s v :
  reachable s -> debouncedQuery s <> ""%js -> v = ""%js ->
  let s' := step s (DebounceFire v) in
  results s' = [] /\ numFound s' = 0%N /\ error s' = None /\
  issued s' = issued s /\ (forall r, In r (pending s') -> aborted r = true).
Proof.
  intros Hs Hq -> ; cbv zeta.
  destruct (reachable_inv s Hs) as ([Hr Hf] & Hl & _).
  set (t0 := set_debouncedQuery ""%js s).
  assert (Hl0 : live_is_current t0) by (intros r Hin Hab; apply Hl; assumption).
  assert (Hfetch : deps_changed_fetch t0 = true).
  { unfold deps_changed_fetch; simpl; rewrite Hf; unfold key_eqb; simpl.
    destruct (js_eqb_spec (debouncedQuery s) ""%js); [contradiction|reflexivity]. }
  assert (Hidle : idle (issued s) (commit t0)).
  { destruct (fetch_cleanup_aborts t0 Hl0) as [Hc Ha].
    unfold commit; rewrite Hfetch; unfold fetch_effect; simpl.
    destruct (deps_changed_reset t0); unfold idle; simpl; repeat split; auto;
      unfold fetch_cleanup; destruct (controller t0); reflexivity. }
  assert (Hn : needs_commit t0 = true) by (unfold needs_commit; rewrite Hfetch, orb_true_r; reflexivity).
  simpl; fold t0; unfold render; cbn [settle]; rewrite Hn.
  destruct (settle_idle (issued s) 2 (commit t0) Hidle) as (_ & H1 & H2 & H3 & H4 & _ & H6).
  cbn [settle] in *. auto.
Qed.

Lemma C7_empty_query_idle_witness :
  reachable dune_search /\ results (step dune_search (DebounceFire ""%js)) = [].
Proof.
  assert (Hr : reachable dune_search) by (exists [DebounceFire "Dune"]; reflexivity).
  split; [exact Hr|].
  pose proof (C7_empty_query_idle dune_search ""%js Hr
                ltac:(vm_compute; discriminate) eq_refl) as H.
  cbv zeta in H. destruct H as [H _]. exact H.
Defined.

(** ** C1 *)

(** C1 (failing input): after "Dunes" superseded "Dune", the cancelled
    "Dune" request settling clears loading while the "Dunes" request is
    still pending; it leaves results, numFound and error alone, and when
    the two settle in reverse order the final state is the "Dunes" one. *)
Lemma C1_cancelled_request_clears_loading :
  loading superseded = true /\ In dunes_request (pending superseded) /\
  (let s := step superseded (Settle 0 (NetError "Failed to fetch")) in
   loading s = false /\ In dunes_request (pending s) /\
   results s = results superseded /\ numFound s = numFound superseded /\
   error s = error superseded) /\
  (let s := run superseded [Settle 1 (ok_json (Some dunes_docs) (Some 7%N));
                            Settle 0 (ok_json (Some dune_docs) (Some 45%N))] in
   results s = dunes_docs /\ numFound s = 7%N /\ error s = None).
Proof. vm_compute; repeat split; auto. Qed.

(** ** C2 *)

(** C2 (failing input): on page 2, when the debounced query becomes
    "Dunes" the first request for "Dunes" asks for page 2 (offset 20);
    the page-1 request follows and the page-2 one is cancelled. *)
Lemma C2_first_fetch_uses_old_page :
  page page2_session = 2 /\
  let s := step page2_session (DebounceFire "Dunes") in
  map (fun r => (rquery r, rpage r)) (skipn 2 (issued s))
  = [("Dunes", 2); ("Dunes", 1)]%js /\
  map rurl (skipn 2 (issued s))
  = ["https://openlibrary.org/search.json?title=Dunes&limit=20&offset=20";
     "https://openlibrary.org/search.json?title=Dunes&limit=20&offset=0"]%string /\
  page s = 1.
Proof. vm_compute; repeat split. Qed.

(** ** C8 *)

(** C8 (counterexample): with [cover_i] present but 0 and an ISBN, the
    ISBN form is chosen, not the numeric-id form. *)
Lemma C8_zero_cover_id_uses_isbn :
  coverUrl doc_cover0
  = Some "https://covers.openlibrary.org/b/isbn/0441013597-M.jpg"%string /\
  coverUrl doc_cover0 <> Some "https://covers.openlibrary.org/b/id/0-M.jpg"%string.
Proof. split; [reflexivity|vm_compute; discriminate]. Qed.

(** C8 (amended): a non-zero [cover_i] gives the numeric-id form whatever
    the ISBNs; with [cover_i] absent or 0, a non-empty [isbn] gives the
    ISBN form with the first ISBN, and an absent or empty [isbn] gives no
    cover URL. *)
Theorem C8_cover_resolution d :
  (forall c, cover_i d = Some c -> c <> 0 ->
     coverUrl d = Some ("https://covers.openlibrary.org/b/id/" ++ Z_to_dec c ++ "-M.jpg")%string) /\
  ((cover_i d = None \/ cover_i d = Some 0) ->
     forall i rest, isbn d = Some (i :: rest) ->
     coverUrl d = Some ("https://covers.openlibrary.org/b/isbn/" ++ i ++ "-M.jpg")%string) /\
  ((cover_i d = None \/ cover_i d = Some 0) ->
     (isbn d = None \/ isbn d = Some []) -> coverUrl d = None).
Proof.
  unfold coverUrl. split; [|split].
  - intros c Hc Hz; rewrite Hc. apply Z.eqb_neq in Hz; rewrite Hz; reflexivity.
  - intros [Hc|Hc] i rest Hi; rewrite Hc, Hi; reflexivity.
  - intros [Hc|Hc] [Hi|Hi]; rewrite Hc, Hi; reflexivity.
Qed.

(** ** C9 *)

Lemma last_default {A} (a : A) l d d' : last (a :: l) d = last (a :: l) d'.
Proof.
  revert a; induction l as [|b l IH]; intros a; [reflexivity|].
  change (last (b :: l) d = last (b :: l) d'); apply IH.
Qed.

Lemma input_quick delay v t x t' x' :
  t' < t + delay -> x' <> x ->
  Debounce.input delay (Debounce.mkD x v (Some (t + delay, x)), []) (t', x')
  = (Debounce.mkD x' v (Some (t' + delay, x')), []).
Proof.
  intros Ht Hx; unfold Debounce.input, Debounce.fire_due; simpl.
  destruct (Z.leb_spec (t + delay) t'); [lia|]; simpl.
  destruct (String.eqb_spec x' x); [contradiction|reflexivity].
Qed.

Lemma input_first delay s0 t0 x0 :
  Debounce.dtimer s0 = None -> x0 <> Debounce.dvalue s0 ->
  Debounce.input delay (s0, []) (t0, x0)
  = (Debounce.mkD x0 (Debounce.dv s0) (Some (t0 + delay, x0)), []).
Proof.
  intros Ht Hx; unfold Debounce.input, Debounce.fire_due; rewrite Ht.
  destruct (String.eqb_spec x0 (Debounce.dvalue s0)); [contradiction|reflexivity].
Qed.

Lemma quick_fold delay v t x rest tl xl :
  Debounce.quick delay (t, x) rest ->
  last ((t, x) :: rest) (t, x) = (tl, xl) ->
  fold_left (Debounce.input delay) rest (Debounce.mkD x v (Some (t + delay, x)), [])
  = (Debounce.mkD xl v (Some (tl + delay, xl)), []).
Proof.
  revert t x; induction rest as [|[t' x'] rest IH]; intros t x Hq Hl.
  - simpl in Hl; injection Hl as <- <-; reflexivity.
  - destruct Hq as [[Ht1 Ht2] [Hx Hq]]; simpl in Ht1, Ht2, Hx.
    change (last ((t', x') :: rest) (t, x) = (tl, xl)) in Hl.
    rewrite (last_default _ _ _ (t', x')) in Hl.
    cbn [fold_left]. rewrite input_quick by assumption.
    apply IH; assumption.
Qed.

(** C9: for inputs each following the previous one by less than the
    delay (and each changing the raw value), the debounced value is set
    exactly once, to the last input, one delay after that input. *)
Theorem C9_debounce_last_write delay s0 t0 x0 rest :
  Debounce.dtimer s0 = None -> x0 <> Debounce.dvalue s0 ->
  Debounce.quick delay (t0, x0) rest ->
  let (tl, xl) := last ((t0, x0) :: rest) (t0, x0) in
  Debounce.debounce delay s0 ((t0, x0) :: rest)
  = (Debounce.mkD xl xl None, [(tl + delay, xl)]).
Proof.
  intros Ht Hx Hq.
  destruct (last ((t0, x0) :: rest) (t0, x0)) as [tl xl] eqn:E.
  unfold Debounce.debounce; cbn [fold_left].
  rewrite input_first by assumption.
  rewrite (quick_fold delay (Debounce.dv s0) t0 x0 rest tl xl Hq E).
  reflexivity.
Qed.

Lemma C9_debounce_last_write_witness :
  Debounce.debounce 450 (Debounce.mkD "" "" None) [(0, "D"%string); (100, "Du"%string)]
  = (Debounce.mkD "Du" "Du" None, [(550, "Du"%string)]).
Proof.
  exact (C9_debounce_last_write 450 (Debounce.mkD "" "" None) 0 "D" [(100, "Du"%string)]
           eq_refl ltac:(discriminate) ltac:(simpl; split; [lia|split; [discriminate|exact I]])).
Defined.

(** * Further properties of App *)

(** ** Keys, controllers and URLs of the requests *)

Lemma map_rid_abort id l : map rid (map (abort_one id) l) = map rid l.
Proof.
  induction l as [|r l IH]; simpl; [reflexivity|].
  rewrite IH; unfold abort_one; destruct (Nat.eqb (rid r) id); reflexivity.
Qed.

Lemma NoDup_map_filter {A B} (f : A -> B) (p : A -> bool) l :
  NoDup (map f l) -> NoDup (map f (filter p l)).
Proof.
  induction l as [|a l IH]; simpl; intros H; [constructor|].
  inversion H as [|? ? Hn Hd]; subst.
  destruct (p a); simpl; [constructor; [|apply IH; exact Hd]|apply IH; exact Hd].
  intros Hin; apply Hn. apply in_map_iff in Hin as [x [Ex Hx]].
  apply filter_In in Hx as [Hx _]. rewrite <- Ex; apply in_map; exact Hx.
Qed.

Lemma NoDup_map_inj {A B} (f : A -> B) l a b :
  NoDup (map f l) -> In a l -> In b l -> f a = f b -> a = b.
Proof.
  induction l as [|x l IH]; simpl; intros H Ha Hb E; [contradiction|].
  inversion H as [|? ? Hn Hd]; subst.
  destruct Ha as [<-|Ha], Hb as [<-|Hb]; auto.
  - exfalso; apply Hn; rewrite E; apply in_map; exact Hb.
  - exfalso; apply Hn; rewrite <- E; apply in_map; exact Ha.
Qed.

Lemma NoDup_snoc (l : list nat) x : NoDup l -> ~ In x l -> NoDup (l ++ [x]).
Proof.
  intros H Hx; apply NoDup_app; [exact H|constructor; [intros []|constructor]|].
  intros a Ha [<-|[]]; contradiction.
Qed.

Lemma fetch_cleanup_frame s :
  map rid (pending (fetch_cleanup s)) = map rid (pending s) /\
  issued (fetch_cleanup s) = issued s /\ next_id (fetch_cleanup s) = next_id s.
Proof.
  unfold fetch_cleanup; destruct (controller s); simpl; [rewrite map_rid_abort|]; auto.
Qed.

Lemma fetch_effect_cases dq pg t :
  (dq = ""%js /\ pending (fetch_effect dq pg t) = pending t /\
   issued (fetch_effect dq pg t) = issued t /\ next_id (fetch_effect dq pg t) = next_id t)
  \/
  (dq <> ""%js /\ encodeURIComponent dq = None /\ pending (fetch_effect dq pg t) = pending t /\
   issued (fetch_effect dq pg t) = issued t /\
   next_id (fetch_effect dq pg t) = S (next_id t))
  \/
  (exists url, dq <> ""%js /\ search_url dq pg = Some url /\
   pending (fetch_effect dq pg t) = pending t ++ [mkRequest (next_id t) dq pg url false] /\
   issued (fetch_effect dq pg t) = issued t ++ [mkRequest (next_id t) dq pg url false] /\
   next_id (fetch_effect dq pg t) = S (next_id t)).
Proof.
  unfold fetch_effect; destruct (js_eqb_spec dq ""%js); simpl; [left; auto|right].
  unfold fetchBooks; destruct (search_url dq pg) as [url|] eqn:E.
  - right; exists url; simpl; auto.
  - left; simpl; split; [assumption|split; [|auto]].
    unfold search_url in E; destruct (encodeURIComponent dq); [discriminate|reflexivity].
Qed.

Lemma deps_fetch_unchanged s :
  deps_changed_fetch s = false -> deps_fetch s = Some (debouncedQuery s, page s).
Proof.
  unfold deps_changed_fetch; destruct (deps_fetch s) as [[q p]|]; [|discriminate].
  intros H; apply negb_false_iff in H; unfold key_eqb in H; simpl in H.
  apply andb_true_iff in H as [H1 H2].
  apply js_eqb_eq in H1; apply Z.eqb_eq in H2; subst; reflexivity.
Qed.

Lemma fetch_effect_ext dq pg t :
  (forall r, In r (pending t) -> aborted r = true) -> id_inv t -> issued_ok t -> pg >= 1 ->
  ext_inv (set_deps (Some dq) (Some (dq, pg)) (fetch_effect dq pg t)).
Proof.
  intros Ha [Hn Hb] Hi Hp.
  destruct (fetch_effect_cases dq pg t)
    as [(Hq & P1 & P2 & P3)|[(Hq & He & P1 & P2 & P3)|(url & Hq & Hu & P1 & P2 & P3)]];
    unfold ext_inv, key_inv, id_inv, issued_ok, set_deps;
    cbn [pending issued next_id deps_fetch]; rewrite P1, P2, P3.
  - split; [|split; [split|]].
    + intros r Hin Hab; rewrite (Ha r Hin) in Hab; discriminate.
    + exact Hn.
    + exact Hb.
    + exact Hi.
  - split; [|split; [split|]].
    + intros r Hin Hab; rewrite (Ha r Hin) in Hab; discriminate.
    + exact Hn.
    + intros i Hin; specialize (Hb _ Hin); lia.
    + exact Hi.
  - split; [|split; [split|]].
    + intros r Hin Hab. apply in_app_or in Hin as [Hin|[<-|[]]].
      * rewrite (Ha r Hin) in Hab; discriminate.
      * simpl; auto.
    + rewrite map_app; apply NoDup_snoc; [exact Hn|].
      intros Hin; cbn [rid] in Hin; specialize (Hb _ Hin); lia.
    + rewrite map_app; intros i Hin; apply in_app_or in Hin as [Hin|[<-|[]]];
        [specialize (Hb _ Hin); lia|simpl; lia].
    + intros r Hin; apply in_app_or in Hin as [Hin|[<-|[]]]; [apply Hi, Hin|].
      simpl; auto.
Qed.

Lemma id_inv_cleanup s : id_inv s -> id_inv (fetch_cleanup s).
Proof.
  destruct (fetch_cleanup_frame s) as (F1 & _ & F3).
  unfold id_inv; rewrite F1, F3; auto.
Qed.

Lemma issued_ok_cleanup s : issued_ok s -> issued_ok (fetch_cleanup s).
Proof.
  destruct (fetch_cleanup_frame s) as (_ & F2 & _).
  unfold issued_ok; rewrite F2; auto.
Qed.

Lemma commit_ext s :
  live_is_current s -> page s >= 1 -> ext_inv s -> ext_inv (commit s).
Proof.
  intros Hl Hp (Hk & Hid & Hi).
  destruct (fetch_cleanup_aborts s Hl) as [Hc Ha].
  unfold commit.
  destruct (deps_changed_fetch s) eqn:Ef; destruct (deps_changed_reset s).
  - exact (fetch_effect_ext _ _ (set_page 1 (fetch_cleanup s)) Ha
             (id_inv_cleanup s Hid) (issued_ok_cleanup s Hi) Hp).
  - exact (fetch_effect_ext _ _ (fetch_cleanup s) Ha
             (id_inv_cleanup s Hid) (issued_ok_cleanup s Hi) Hp).
  - split; [|split; [exact Hid|exact Hi]].
    intros r Hin Hab; destruct (Hk r Hin Hab) as [E1 E2]; split; [|exact E2].
    cbn [set_deps deps_fetch]. rewrite <- E1, deps_fetch_unchanged by exact Ef; reflexivity.
  - split; [|split; [exact Hid|exact Hi]].
    intros r Hin Hab; destruct (Hk r Hin Hab) as [E1 E2]; split; [|exact E2].
    cbn [set_deps deps_fetch]. rewrite <- E1, deps_fetch_unchanged by exact Ef; reflexivity.
Qed.

Lemma render_ext t :
  live_is_current t -> page t >= 1 -> ext_inv t -> ext_inv (render t).
Proof.
  unfold render; generalize 3%nat; intros f; revert t.
  induction f as [|f IH]; intros t Hl Hp He; simpl; [exact He|].
  destruct (needs_commit t); [|exact He].
  apply IH; [apply commit_live, Hl| |apply commit_ext; assumption].
  rewrite commit_page; destruct (deps_changed_reset t); lia.
Qed.

Lemma resume_next_id r o t : next_id (fetchBooks_resume r o t) = next_id t.
Proof.
  unfold fetchBooks_resume.
  destruct (aborted r); [reflexivity|].
  destruct o as [m|[|] [[d n|]|m]]; reflexivity.
Qed.

Lemma step_ext s e : app_inv s -> ext_inv s -> ext_inv (step s e).
Proof.
  intros Hi He; pose proof (step_inv s e Hi) as (_ & _ & Hp').
  destruct Hi as (Hs & Hl & Hp). destruct e as [v| | |id o]; simpl in *.
  - apply render_ext; [intros r Hin Hab; apply Hl; assumption|exact Hp|exact He].
  - destruct (prev_disabled s); [exact He|].
    apply render_ext; [intros r Hin Hab; apply Hl; assumption|apply prev_update_pos|exact He].
  - destruct (next_disabled s); [exact He|].
    apply render_ext; [intros r Hin Hab; apply Hl; assumption| |exact He].
    apply next_update_pos; [apply totalPages_nonneg|exact Hp].
  - destruct (find_request id (pending s)) as [r|]; [|exact He].
    set (t := set_requests (controller s) (remove_request id (pending s))
                (issued s) (next_id s) s).
    destruct (resume_frame r o t) as (E1 & E2 & E3 & E4 & E5 & E6 & E7).
    pose proof (resume_next_id r o t) as E8.
    destruct He as (Hk & [Hn Hb] & Hok).
    apply render_ext.
    + intros r' Hin Hab. rewrite E5; rewrite E6 in Hin. simpl in *.
      unfold remove_request in Hin; apply filter_In in Hin as [Hin _].
      apply Hl; assumption.
    + rewrite E2; exact Hp.
    + unfold ext_inv, key_inv, id_inv, issued_ok; rewrite E4, E6, E7, E8.
      simpl; unfold remove_request. split; [|split; [split|]].
      * intros r' Hin Hab; apply filter_In in Hin as [Hin _]; apply Hk; assumption.
      * apply NoDup_map_filter; exact Hn.
      * intros i Hin; apply Hb. apply in_map_iff in Hin as [x [<- Hx]].
        apply filter_In in Hx as [Hx _]; apply in_map; exact Hx.
      * exact Hok.
Qed.

Lemma reachable_ext_inv s : reachable s -> ext_inv s.
Proof.
  intros [es ->].
  assert (H : app_inv init /\ ext_inv init).
  { split; [apply init_inv|]. apply render_ext; [intros r []|simpl; lia|].
    split; [intros r []|split; [split; [constructor|intros i []]|intros r []]]. }
  unfold run; generalize init H; clear H.
  induction es as [|e es IH]; intros s0 [H1 H2]; simpl; [exact H2|].
  apply IH; split; [apply step_inv, H1|apply step_ext; assumption].
Qed.

Lemma resume_loading r o t : loading (fetchBooks_resume r o t) = false.
Proof.
  unfold fetchBooks_resume.
  destruct (aborted r); [reflexivity|].
  destruct o as [m|[|] [[d n|]|m]]; reflexivity.
Qed.

Lemma NoDup_all_equal_len {A B} (f : A -> B) l :
  NoDup (map f l) -> (forall a b, In a l -> In b l -> a = b) -> (List.length l <= 1)%nat.
Proof.
  destruct l as [|a [|b l]]; simpl; intros Hn He; try lia.
  inversion Hn as [|? ? Hx _]; subst. exfalso; apply Hx.
  rewrite (He b a) by auto. left; reflexivity.
Qed.

Lemma live_key s r :
  reachable s -> In r (pending s) -> aborted r = false ->
  rquery r = debouncedQuery s /\ rpage r = page s /\ rquery r <> ""%js.
Proof.
  intros Hs Hin Hab.
  destruct (reachable_inv s Hs) as ([_ Hf] & _ & _).
  destruct (reachable_ext_inv s Hs) as (Hk & _ & _).
  destruct (Hk r Hin Hab) as [E [Hq _]]. rewrite Hf in E. injection E as E1 E2.
  auto.
Qed.

(** ** Settling an aborted request *)

(** X1: when a request whose controller was aborted settles, whatever
    the network answered, the only effect is [setLoading(false)] of the
    [finally] block and the removal of the request: results, numFound,
    error, query, page, controller and the request log are unchanged. *)
Theorem settle_aborted_only_clears_loading s id r o :
  reachable s -> find_request id (pending s) = Some r -> aborted r = true ->
  let s' := step s (Settle id o) in
  loading s' = false /\ results s' = results s /\ numFound s' = numFound s /\
  error s' = error s /\ debouncedQuery s' = debouncedQuery s /\ page s' = page s /\
  controller s' = controller s /\
  pending s' = remove_request id (pending s) /\ issued s' = issued s.
Proof.
  intros Hs F Ha; cbv zeta.
  rewrite (step_settle_found s id r o (reachable_inv s Hs) F).
  unfold fetchBooks_resume; rewrite Ha; simpl; repeat split.
Qed.

Lemma settle_aborted_only_clears_loading_witness :
  reachable superseded /\
  loading (step superseded (Settle 0 (ok_json (Some dune_docs) (Some 45%N)))) = false /\
  results (step superseded (Settle 0 (ok_json (Some dune_docs) (Some 45%N)))) = [].
Proof.
  assert (Hr : reachable superseded) by (exists [DebounceFire "Dune"; DebounceFire "Dunes"]; reflexivity).
  destruct (settle_aborted_only_clears_loading superseded 0
              (mkRequest 0 "Dune" 1
                 "https://openlibrary.org/search.json?title=Dune&limit=20&offset=0" true)
              (ok_json (Some dune_docs) (Some 45%N)) Hr
              ltac:(vm_compute; reflexivity) eq_refl) as (H1 & H2 & _).
  split; [exact Hr|split; [exact H1|]]. rewrite H2; vm_compute; reflexivity.
Defined.

(** ** Live requests *)

(** X2: in every reachable state at most one pending request has a
    controller that was not aborted. *)
Theorem at_most_one_live_request s :
  reachable s -> (List.length (filter (fun r => negb (aborted r)) (pending s)) <= 1)%nat.
Proof.
  intros Hs.
  destruct (reachable_inv s Hs) as (_ & Hl & _).
  destruct (reachable_ext_inv s Hs) as (_ & [Hn _] & _).
  apply (NoDup_all_equal_len rid); [apply NoDup_map_filter, Hn|].
  intros a b Ha Hb.
  apply filter_In in Ha as [Ha Aa]; apply filter_In in Hb as [Hb Ab].
  apply negb_true_iff in Aa, Ab.
  apply (NoDup_map_inj rid (pending s)); auto.
  pose proof (Hl a Ha Aa); pose proof (Hl b Hb Ab); congruence.
Qed.

Lemma at_most_one_live_request_witness :
  reachable superseded /\
  (List.length (filter (fun r => negb (aborted r)) (pending superseded)) <= 1)%nat.
Proof.
  assert (Hr : reachable superseded) by (exists [DebounceFire "Dune"; DebounceFire "Dunes"]; reflexivity).
  split; [exact Hr|apply (at_most_one_live_request superseded Hr)].
Defined.

(** X3: every request [fetchBooks] ever issued is for a non-empty query
    and a page of at least 1, the query can be URL-encoded, and the URL
    is the one built from that query and page. *)
Theorem issued_requests_well_formed s r :
  reachable s -> In r (issued s) ->
  rquery r <> ""%js /\ 1 <= rpage r /\ search_url (rquery r) (rpage r) = Some (rurl r).
Proof.
  intros Hs Hin.
  destruct (reachable_ext_inv s Hs) as (_ & _ & Hok).
  destruct (Hok r Hin) as (H1 & H2 & H3). split; [exact H1|split; [lia|exact H3]].
Qed.

Lemma issued_requests_well_formed_witness :
  reachable superseded /\ 1 <= rpage dunes_request.
Proof.
  assert (Hr : reachable superseded) by (exists [DebounceFire "Dune"; DebounceFire "Dunes"]; reflexivity).
  split; [exact Hr|].
  apply (issued_requests_well_formed superseded dunes_request Hr).
  vm_compute; auto.
Defined.

(** X4: a pending request that was not aborted is for the query and
    page currently shown, and its controller is the one the next
    cleanup aborts. *)
Theorem live_request_matches_view s r :
  reachable s -> In r (pending s) -> aborted r = false ->
  rquery r = debouncedQuery s /\ rpage r = page s /\ controller s = Some (rid r).
Proof.
  intros Hs Hin Hab.
  destruct (reachable_inv s Hs) as (_ & Hl & _).
  destruct (live_key s r Hs Hin Hab) as (E1 & E2 & _).
  auto.
Qed.

Lemma live_request_matches_view_witness :
  reachable superseded /\ rquery dunes_request = debouncedQuery superseded.
Proof.
  assert (Hr : reachable superseded) by (exists [DebounceFire "Dune"; DebounceFire "Dunes"]; reflexivity).
  split; [exact Hr|].
  apply (live_request_matches_view superseded dunes_request Hr); vm_compute; auto.
Defined.

(** X5: once the live request settles, with any outcome, loading is
    false and no pending request is live any more. *)
Theorem settle_live_leaves_none s id r o :
  reachable s -> find_request id (pending s) = Some r -> aborted r = false ->
  let s' := step s (Settle id o) in
  loading s' = false /\ (forall r', In r' (pending s') -> aborted r' = true).
Proof.
  intros Hs F Ha; cbv zeta.
  destruct (reachable_inv s Hs) as (_ & Hl & _).
  destruct (find_request_some _ _ _ F) as [Hin Hid].
  rewrite (step_settle_found s id r o (reachable_inv s Hs) F).
  split; [apply resume_loading|].
  intros r' Hin'.
  destruct (resume_frame r o (set_requests (controller s) (remove_request id (pending s))
                                (issued s) (next_id s) s)) as (_ & _ & _ & _ & _ & E6 & _).
  rewrite E6 in Hin'; simpl in Hin'.
  unfold remove_request in Hin'; apply filter_In in Hin' as [Hin' Hne].
  destruct (aborted r') eqn:Ha'; [reflexivity|exfalso].
  pose proof (Hl r Hin Ha) as C1; pose proof (Hl r' Hin' Ha') as C2.
  rewrite C1 in C2; injection C2 as C2. subst id.
  rewrite C2, Nat.eqb_refl in Hne; discriminate.
Qed.

Lemma settle_live_leaves_none_witness :
  reachable dune_search /\
  loading (step dune_search (Settle 0 (NetError "Failed to fetch"))) = false.
Proof.
  assert (Hr : reachable dune_search) by (exists [DebounceFire "Dune"]; reflexivity).
  split; [exact Hr|].
  apply (settle_live_leaves_none dune_search 0 dune_request (NetError "Failed to fetch") Hr);
    vm_compute; reflexivity.
Defined.

(** X6: the debounce timer firing with the query already shown changes
    nothing: no request is issued or aborted and no state moves. *)
Theorem same_query_no_op s :
  reachable s -> step s (DebounceFire (debouncedQuery s)) = s.
Proof.
  intros Hs; simpl.
  assert (E : set_debouncedQuery (debouncedQuery s) s = s) by (destruct s; reflexivity).
  rewrite E; apply render_settled_id.
  destruct (reachable_inv s Hs) as (H & _ & _); exact H.
Qed.

Lemma same_query_no_op_witness :
  reachable dune_search /\ step dune_search (DebounceFire "Dune") = dune_search.
Proof.
  assert (Hr : reachable dune_search) by (exists [DebounceFire "Dune"]; reflexivity).
  split; [exact Hr|].
  change "Dune"%js with (debouncedQuery dune_search) at 1.
  exact (same_query_no_op dune_search Hr).
Defined.

(** ** Changing the query *)

Lemma settle_keeps_page f t :
  deps_reset t = Some (debouncedQuery t) -> page (settle f t) = page t.
Proof.
  revert t; induction f as [|f IH]; intros t Ht; simpl; [reflexivity|].
  destruct (needs_commit t); [|reflexivity].
  rewrite IH.
  - rewrite commit_page; unfold deps_changed_reset; rewrite Ht, js_eqb_refl; reflexivity.
  - rewrite commit_deps_reset, commit_debouncedQuery; reflexivity.
Qed.

Lemma render_reset_page t : deps_changed_reset t = true -> page (render t) = 1.
Proof.
  intros Hr; unfold render.
  change (settle 3 t) with (if needs_commit t then settle 2 (commit t) else t).
  assert (Hn : needs_commit t = true) by (unfold needs_commit; rewrite Hr; reflexivity).
  rewrite Hn, settle_keeps_page.
  - rewrite commit_page, Hr; reflexivity.
  - rewrite commit_deps_reset, commit_debouncedQuery; reflexivity.
Qed.

Lemma commit_fresh t : deps_changed_fetch t = true \/ fresh t -> fresh (commit t).
Proof.
  intros H Hq He; rewrite commit_debouncedQuery in Hq, He.
  unfold commit; cbv zeta.
  destruct (deps_changed_fetch t) eqn:Ef.
  - set (t2 := if deps_changed_reset t then set_page 1 (fetch_cleanup t) else fetch_cleanup t).
    destruct (fetch_effect_cases (debouncedQuery t) (page t) t2)
      as [(E & _)|[(_ & E & _)|(url & _ & _ & P1 & _)]]; [contradiction|contradiction|].
    eexists; unfold set_deps; cbn [pending deps_fetch]; rewrite P1.
    split; [apply in_or_app; right; left; reflexivity|split; reflexivity].
  - destruct H as [H|H]; [discriminate|].
    destruct (H Hq He) as (r & Hin & Ha & Hd).
    exists r; unfold set_deps; cbn [pending deps_fetch].
    split; [destruct (deps_changed_reset t); exact Hin|split; [exact Ha|]].
    rewrite <- Hd, deps_fetch_unchanged by exact Ef; reflexivity.
Qed.

Lemma settle_fresh f t : fresh t -> fresh (settle f t).
Proof.
  revert t; induction f as [|f IH]; intros t H; simpl; [exact H|].
  destruct (needs_commit t); [apply IH, commit_fresh; right; exact H|exact H].
Qed.

(** X7: when the debounced query changes, the page goes back to 1, every
    live request is for the new query and page 1, and for a non-empty
    query that can be URL-encoded such a request is pending. *)
Theorem query_change_restarts_at_page_1 s q :
  reachable s -> q <> debouncedQuery s ->
  let s' := step s (DebounceFire q) in
  debouncedQuery s' = q /\ page s' = 1 /\
  (forall r, In r (pending s') -> aborted r = false -> rquery r = q /\ rpage r = 1) /\
  (q <> ""%js -> encodeURIComponent q <> None ->
   exists r, In r (pending s') /\ aborted r = false /\ rquery r = q /\ rpage r = 1).
Proof.
  intros Hs Hq; cbv zeta.
  pose proof (reachable_step s (DebounceFire q) Hs) as Hs'.
  destruct (reachable_inv s Hs) as ([Hr Hf] & _ & _).
  destruct (reachable_inv _ Hs') as ([_ Hf'] & _ & _).
  assert (Hdq : debouncedQuery (step s (DebounceFire q)) = q)
    by (simpl; rewrite render_debouncedQuery; reflexivity).
  assert (Hpg : page (step s (DebounceFire q)) = 1).
  { simpl; apply render_reset_page. unfold deps_changed_reset; simpl; rewrite Hr.
    destruct (js_eqb_spec (debouncedQuery s) q); [congruence|reflexivity]. }
  rewrite Hdq, Hpg in Hf'.
  split; [exact Hdq|split; [exact Hpg|split]].
  - intros r Hin Hab. destruct (live_key _ r Hs' Hin Hab) as (E1 & E2 & _).
    rewrite Hdq in E1; rewrite Hpg in E2; auto.
  - intros Hne Henc.
    assert (Hfr : fresh (step s (DebounceFire q))).
    { simpl; unfold render.
      change (settle 3 (set_debouncedQuery q s)) with
        (if needs_commit (set_debouncedQuery q s)
         then settle 2 (commit (set_debouncedQuery q s)) else set_debouncedQuery q s).
      assert (Ef : deps_changed_fetch (set_debouncedQuery q s) = true).
      { unfold deps_changed_fetch; simpl; rewrite Hf; unfold key_eqb; simpl.
        destruct (js_eqb_spec (debouncedQuery s) q); [congruence|reflexivity]. }
      assert (Hn : needs_commit (set_debouncedQuery q s) = true)
        by (unfold needs_commit; rewrite Ef, orb_true_r; reflexivity).
      rewrite Hn; apply settle_fresh, commit_fresh; left; exact Ef. }
    destruct (Hfr ltac:(rewrite Hdq; exact Hne) ltac:(rewrite Hdq; exact Henc))
      as (r & Hin & Ha & Hd).
    rewrite Hf' in Hd; injection Hd as E1 E2.
    exists r; auto.
Qed.

Lemma query_change_restarts_at_page_1_witness :
  reachable page2_session /\ "Dunes"%js <> debouncedQuery page2_session /\
  page (step page2_session (DebounceFire "Dunes")) = 1 /\
  "Dunes"%js <> ""%js /\ encodeURIComponent "Dunes" <> None /\
  exists r, In r (pending (step page2_session (DebounceFire "Dunes"))) /\
    aborted r = false /\ rquery r = "Dunes"%js /\ rpage r = 1.
Proof.
  assert (Hr : reachable page2_session)
    by (exists [DebounceFire "Dune"; Settle 0 (ok_json (Some dune_docs) (Some 45%N)); ClickNext];
        reflexivity).
  assert (Hq : "Dunes"%js <> debouncedQuery page2_session) by (vm_compute; discriminate).
  destruct (query_change_restarts_at_page_1 page2_session "Dunes" Hr Hq)
    as (_ & H & _ & H4).
  split; [exact Hr|]. split; [exact Hq|]. split; [exact H|].
  split; [discriminate|]. split; [discriminate|].
  exact (H4 ltac:(discriminate) ltac:(discriminate)).
Defined.

(** ** The empty query *)

Lemma render_to_empty s :
  app_inv s -> debouncedQuery s <> ""%js ->
  empty_ok (render (set_debouncedQuery ""%js s)).
Proof.
  intros ([Hr Hf] & Hl & _) Hq _.
  set (t0 := set_debouncedQuery ""%js s).
  assert (Hl0 : live_is_current t0) by (intros r Hin Hab; apply Hl; assumption).
  assert (Hfetch : deps_changed_fetch t0 = true).
  { unfold deps_changed_fetch; simpl; rewrite Hf; unfold key_eqb; simpl.
    destruct (js_eqb_spec (debouncedQuery s) ""%js); [contradiction|reflexivity]. }
  assert (Hreset : deps_changed_reset t0 = true).
  { unfold deps_changed_reset; simpl; rewrite Hr.
    destruct (js_eqb_spec (debouncedQuery s) ""%js); [contradiction|reflexivity]. }
  assert (Hidle : idle (issued s) (commit t0)).
  { destruct (fetch_cleanup_aborts t0 Hl0) as [Hc Ha].
    unfold commit; rewrite Hfetch; unfold fetch_effect; simpl.
    destruct (deps_changed_reset t0); unfold idle; simpl; repeat split; auto;
      unfold fetch_cleanup; destruct (controller t0); reflexivity. }
  assert (Hn : needs_commit t0 = true)
    by (unfold needs_commit; rewrite Hfetch, orb_true_r; reflexivity).
  assert (E : render t0 = settle 2 (commit t0)).
  { unfold render.
    change (settle 3 t0) with (if needs_commit t0 then settle 2 (commit t0) else t0).
    rewrite Hn; reflexivity. }
  destruct (settle_idle (issued s) 2 (commit t0) Hidle) as (_ & H1 & H2 & H3 & _).
  split; [rewrite E; exact H1|split; [rewrite E; exact H2|split; [rewrite E; exact H3|]]].
  apply render_reset_page, Hreset.
Qed.

Lemma step_empty s e : reachable s -> empty_ok s -> empty_ok (step s e).
Proof.
  intros Hs He; pose proof (reachable_inv s Hs) as Hi.
  destruct e as [v| | |id o].
  - cbn [step]; intros Hv.
    rewrite render_debouncedQuery in Hv; cbn [set_debouncedQuery debouncedQuery] in Hv; subst v.
    destruct (js_eqb_spec (debouncedQuery s) ""%js) as [Hq|Hq].
    + assert (E : set_debouncedQuery ""%js s = s)
        by (destruct s; cbn in *; subst; reflexivity).
      rewrite E, render_settled_id by (destruct Hi as (H & _); exact H).
      apply He, Hq.
    + apply (render_to_empty s Hi Hq).
      rewrite render_debouncedQuery; reflexivity.
  - cbn [step]; destruct (prev_disabled s) eqn:Hd; [exact He|].
    intros Hq; rewrite render_debouncedQuery in Hq; cbn [set_page debouncedQuery] in Hq.
    destruct (He Hq) as (_ & _ & _ & Hp).
    unfold prev_disabled in Hd; rewrite Hp in Hd; discriminate.
  - cbn [step]; destruct (next_disabled s) eqn:Hd; [exact He|].
    intros Hq; rewrite render_debouncedQuery in Hq; cbn [set_page debouncedQuery] in Hq.
    destruct (He Hq) as (_ & Hn & _ & Hp).
    unfold next_disabled in Hd; rewrite Hn, Hp in Hd; vm_compute in Hd; discriminate.
  - destruct (find_request id (pending s)) as [r|] eqn:F;
      [|cbn [step]; rewrite F; exact He].
    rewrite (step_settle_found s id r o Hi F).
    destruct (resume_frame r o (set_requests (controller s) (remove_request id (pending s))
                                  (issued s) (next_id s) s)) as (E1 & E2 & _).
    intros Hq; rewrite E1 in Hq; cbn [set_requests debouncedQuery] in Hq.
    destruct (aborted r) eqn:Ha.
    + unfold fetchBooks_resume; rewrite Ha; simpl. apply He, Hq.
    + destruct (find_request_some _ _ _ F) as [Hin _].
      destruct (live_key s r Hs Hin Ha) as (Eq & _ & Hne). congruence.
Qed.

Lemma reachable_empty_ok s : reachable s -> empty_ok s.
Proof.
  intros [es ->].
  induction es as [|e es IH] using rev_ind.
  - intros _; vm_compute; repeat split.
  - unfold run; rewrite fold_left_app; cbn [fold_left].
    apply step_empty; [exists es; reflexivity|exact IH].
Qed.

(** X8: while the debounced query is empty, results and numFound are
    cleared, no error is shown, the page is 1, both buttons are disabled
    and no pending request is live. *)
Theorem empty_query_is_idle s :
  reachable s -> debouncedQuery s = ""%js ->
  results s = [] /\ numFound s = 0%N /\ error s = None /\ page s = 1 /\
  prev_disabled s = true /\ next_disabled s = true /\
  (forall r, In r (pending s) -> aborted r = true).
Proof.
  intros Hs Hq. destruct (reachable_empty_ok s Hs Hq) as (H1 & H2 & H3 & H4).
  split; [exact H1|split; [exact H2|split; [exact H3|split; [exact H4|split; [|split]]]]].
  - unfold prev_disabled; rewrite H4; reflexivity.
  - unfold next_disabled; rewrite H2, H4; reflexivity.
  - intros r Hin. destruct (aborted r) eqn:Ha; [reflexivity|].
    destruct (live_key s r Hs Hin Ha) as (E & _ & Hne). congruence.
Qed.

Lemma empty_query_is_idle_witness :
  reachable (run init [DebounceFire "Dune"; DebounceFire ""%js]) /\
  next_disabled (run init [DebounceFire "Dune"; DebounceFire ""%js]) = true.
Proof.
  assert (Hr : reachable (run init [DebounceFire "Dune"; DebounceFire ""%js]))
    by (exists [DebounceFire "Dune"; DebounceFire ""%js]; reflexivity).
  split; [exact Hr|].
  destruct (empty_query_is_idle _ Hr ltac:(vm_compute; reflexivity))
    as (_ & _ & _ & _ & _ & H & _).
  exact H.
Defined.

(** ** Queries that cannot be encoded *)

Lemma fetch_effect_malformed dq pg t :
  encodeURIComponent dq = None ->
  error (fetch_effect dq pg t) = Some uri_malformed /\ loading (fetch_effect dq pg t) = false.
Proof.
  intros He; unfold fetch_effect.
  destruct (js_eqb_spec dq ""%js) as [E|_]; [subst; discriminate He|].
  unfold fetchBooks, search_url; rewrite He; split; reflexivity.
Qed.

Lemma commit_malformed t :
  deps_changed_fetch t = true \/ malformed_ok t -> malformed_ok (commit t).
Proof.
  intros H He; rewrite commit_debouncedQuery in He.
  unfold commit; cbv zeta.
  destruct (deps_changed_fetch t) eqn:Ef.
  - unfold set_deps; cbn [error loading]. apply fetch_effect_malformed, He.
  - destruct H as [H|H]; [discriminate|].
    destruct (H He) as [E1 E2].
    destruct (deps_changed_reset t); unfold set_deps, set_page; cbn [error loading]; auto.
Qed.

Lemma settle_malformed f t : malformed_ok t -> malformed_ok (settle f t).
Proof.
  revert t; induction f as [|f IH]; intros t H; simpl; [exact H|].
  destruct (needs_commit t); [apply IH, commit_malformed; right; exact H|exact H].
Qed.

Lemma render_malformed t :
  deps_changed_fetch t = true \/ malformed_ok t -> malformed_ok (render t).
Proof.
  intros H; unfold render.
  change (settle 3 t) with (if needs_commit t then settle 2 (commit t) else t).
  destruct (needs_commit t) eqn:Hn.
  - apply settle_malformed, commit_malformed, H.
  - destruct H as [H|H]; [|exact H].
    unfold needs_commit in Hn; rewrite H, orb_true_r in Hn; discriminate.
Qed.

Lemma malformed_frame s t :
  settled s -> malformed_ok s ->
  deps_fetch t = deps_fetch s -> error t = error s -> loading t = loading s ->
  deps_changed_fetch t = true \/ malformed_ok t.
Proof.
  intros [_ Hf] Hm E1 E2 E3.
  destruct (deps_changed_fetch t) eqn:Ef; [left; reflexivity|right].
  apply deps_fetch_unchanged in Ef. rewrite E1, Hf in Ef. injection Ef as Eq _.
  intros He; rewrite E2, E3; apply Hm; rewrite Eq; exact He.
Qed.

Lemma live_encodable s r :
  reachable s -> In r (pending s) -> aborted r = false ->
  encodeURIComponent (debouncedQuery s) <> None.
Proof.
  intros Hs Hin Hab He.
  destruct (live_key s r Hs Hin Hab) as (E1 & E2 & _).
  destruct (reachable_ext_inv s Hs) as (Hk & _ & _).
  destruct (Hk r Hin Hab) as (_ & _ & Hu).
  rewrite E1, E2 in Hu; unfold search_url in Hu; rewrite He in Hu; discriminate.
Qed.

Lemma step_malformed s e : reachable s -> malformed_ok s -> malformed_ok (step s e).
Proof.
  intros Hs Hm; pose proof (reachable_inv s Hs) as Hi.
  destruct Hi as (Hset & Hl & Hp).
  destruct e as [v| | |id o].
  - cbn [step]; apply render_malformed, (malformed_frame s); auto.
  - cbn [step]; destruct (prev_disabled s); [exact Hm|].
    apply render_malformed, (malformed_frame s); auto.
  - cbn [step]; destruct (next_disabled s); [exact Hm|].
    apply render_malformed, (malformed_frame s); auto.
  - destruct (find_request id (pending s)) as [r|] eqn:F; [|cbn [step]; rewrite F; exact Hm].
    rewrite (step_settle_found s id r o (conj Hset (conj Hl Hp)) F).
    destruct (resume_frame r o (set_requests (controller s) (remove_request id (pending s))
                                  (issued s) (next_id s) s)) as (E1 & _).
    intros He; rewrite E1 in He; cbn [set_requests debouncedQuery] in He.
    destruct (aborted r) eqn:Ha.
    + destruct (Hm He) as [H1 _].
      unfold fetchBooks_resume; rewrite Ha; cbn [set_loading set_requests error loading].
      split; [exact H1|reflexivity].
    + destruct (find_request_some _ _ _ F) as [Hin _].
      exfalso; exact (live_encodable s r Hs Hin Ha He).
Qed.

Lemma reachable_malformed_ok s : reachable s -> malformed_ok s.
Proof.
  intros [es ->].
  induction es as [|e es IH] using rev_ind.
  - intros H; vm_compute in H; discriminate H.
  - unfold run; rewrite fold_left_app; cbn [fold_left].
    apply step_malformed; [exists es; reflexivity|exact IH].
Qed.

(** X13: while the debounced query cannot be URL-encoded (it holds an
    unpaired surrogate), the error "URI malformed" is shown, loading is
    off and no pending request is live. *)
Theorem unencodable_query_shows_error s :
  reachable s -> encodeURIComponent (debouncedQuery s) = None ->
  error s = Some uri_malformed /\ loading s = false /\
  (forall r, In r (pending s) -> aborted r = true).
Proof.
  intros Hs He.
  destruct (reachable_malformed_ok s Hs He) as [H1 H2].
  split; [exact H1|split; [exact H2|]].
  intros r Hin. destruct (aborted r) eqn:Ha; [reflexivity|].
  exfalso; exact (live_encodable s r Hs Hin Ha He).
Qed.

Lemma unencodable_query_shows_error_witness :
  let s := run init [DebounceFire "Dune"; DebounceFire lone_surrogate; ClickNext] in
  reachable s /\ encodeURIComponent (debouncedQuery s) = None /\
  error s = Some uri_malformed /\ loading s = false /\
  (forall r, In r (pending s) -> aborted r = true).
Proof.
  cbv zeta.
  assert (Hr : reachable (run init [DebounceFire "Dune"; DebounceFire lone_surrogate; ClickNext]))
    by (eexists; reflexivity).
  assert (He : encodeURIComponent
                 (debouncedQuery (run init [DebounceFire "Dune"; DebounceFire lone_surrogate;
                                            ClickNext])) = None)
    by (vm_compute; reflexivity).
  split; [exact Hr|split; [exact He|]].
  exact (unencodable_query_shows_error _ Hr He).
Defined.

(** ** The Prev and Next buttons *)

Lemma fetch_cleanup_view s :
  debouncedQuery (fetch_cleanup s) = debouncedQuery s /\ page (fetch_cleanup s) = page s /\
  results (fetch_cleanup s) = results s /\ numFound (fetch_cleanup s) = numFound s.
Proof. unfold fetch_cleanup; destruct (controller s); repeat split. Qed.

Lemma page_move s p e :
  reachable s -> debouncedQuery s <> ""%js -> encodeURIComponent (debouncedQuery s) = Some e ->
  p <> page s ->
  let R := mkRequest (next_id s) (debouncedQuery s) p (search_url_enc e p) false in
  let s' := render (set_page p s) in
  page s' = p /\ debouncedQuery s' = debouncedQuery s /\
  results s' = results s /\ numFound s' = numFound s /\
  error s' = None /\ issued s' = issued s ++ [R] /\
  In R (pending s') /\ (forall r, In r (pending s') -> aborted r = false -> r = R).
Proof.
  intros Hs Hq He Hp; cbv zeta.
  assert (Hu : search_url (debouncedQuery s) p = Some (search_url_enc e p))
    by (unfold search_url; rewrite He; reflexivity).
  destruct (reachable_inv s Hs) as ([Hr Hf] & Hl & _).
  assert (Er : deps_changed_reset (set_page p s) = false)
    by (unfold deps_changed_reset; simpl; rewrite Hr, js_eqb_refl; reflexivity).
  assert (Ef : deps_changed_fetch (set_page p s) = true).
  { unfold deps_changed_fetch; simpl; rewrite Hf; unfold key_eqb; simpl.
    rewrite js_eqb_refl. destruct (Z.eqb_spec (page s) p); [congruence|reflexivity]. }
  assert (Hn : needs_commit (set_page p s) = true)
    by (unfold needs_commit; rewrite Ef, orb_true_r; reflexivity).
  assert (Ec : commit (set_page p s)
               = set_deps (Some (debouncedQuery s)) (Some (debouncedQuery s, p))
                   (fetchBooks (debouncedQuery s) p (fetch_cleanup (set_page p s)))).
  { unfold commit; cbv zeta; rewrite Ef, Er; unfold fetch_effect.
    destruct (js_eqb_spec (debouncedQuery (set_page p s)) ""%js) as [E|E];
      [exact (False_ind _ (Hq E))|reflexivity]. }
  assert (Hset : settled (commit (set_page p s))).
  { split; [rewrite commit_deps_reset, commit_debouncedQuery; reflexivity|].
    rewrite commit_deps_fetch, commit_debouncedQuery, commit_page, Er; reflexivity. }
  assert (E : render (set_page p s) = commit (set_page p s)).
  { unfold render.
    change (settle 3 (set_page p s)) with
      (if needs_commit (set_page p s) then settle 2 (commit (set_page p s)) else set_page p s).
    rewrite Hn; apply settle_settled, Hset. }
  rewrite E, Ec.
  destruct (fetch_cleanup_view (set_page p s)) as (V1 & V2 & V3 & V4).
  destruct (fetch_cleanup_frame (set_page p s)) as (_ & F2 & F3).
  destruct (fetch_cleanup_aborts (set_page p s)
              ltac:(intros r Hin Hab; apply Hl; assumption)) as [_ Ha].
  unfold set_deps, fetchBooks; rewrite Hu; cbn [page debouncedQuery results numFound error
    issued pending next_id set_requests set_error set_loading].
  rewrite V2, V3, V4, F2, F3.
  split; [reflexivity|split; [exact V1|split; [reflexivity|split; [reflexivity|]]]].
  split; [reflexivity|split; [reflexivity|split]].
  - apply in_or_app; right; left; reflexivity.
  - intros r Hin Hab; apply in_app_or in Hin as [Hin|[<-|[]]]; [|reflexivity].
    rewrite (Ha r Hin) in Hab; discriminate.
Qed.

(** X9: when the query can be URL-encoded (to [e]), an enabled Next
    button moves to [Math.min(totalPages || 1, page + 1)], which differs
    from the current page; it issues exactly one request, for the query
    and that page, aborts every other pending request, clears the error,
    and keeps the results and numFound on screen until the response. *)
Theorem next_click_fetches_new_page s e :
  reachable s -> next_disabled s = false -> encodeURIComponent (debouncedQuery s) = Some e ->
  let p := next_update (totalPages (numFound s)) (page s) in
  let R := mkRequest (next_id s) (debouncedQuery s) p (search_url_enc e p) false in
  let s' := step s ClickNext in
  page s' = p /\ p <> page s /\ results s' = results s /\ numFound s' = numFound s /\
  error s' = None /\ issued s' = issued s ++ [R] /\
  In R (pending s') /\ (forall r, In r (pending s') -> aborted r = false -> r = R).
Proof.
  intros Hs Hd He; cbv zeta.
  assert (Hq : debouncedQuery s <> ""%js).
  { intros Hq; destruct (reachable_empty_ok s Hs Hq) as (_ & Hn & _ & Hp).
    unfold next_disabled in Hd; rewrite Hn, Hp in Hd; vm_compute in Hd; discriminate. }
  assert (Hp : next_update (totalPages (numFound s)) (page s) <> page s).
  { unfold next_disabled in Hd; cbv zeta in Hd; apply orb_false_iff in Hd as [D1 D2].
    unfold next_update; rewrite D2; apply Z.eqb_neq in D1; lia. }
  cbn [step]; rewrite Hd.
  destruct (page_move s _ e Hs Hq He Hp) as (H1 & _ & H3 & H4 & H5 & H7 & H8 & H9).
  repeat (split; [assumption|]); exact H9.
Qed.

Lemma next_click_fetches_new_page_witness :
  reachable page2_session /\ next_disabled page2_session = false /\
  encodeURIComponent (debouncedQuery page2_session) = Some "Dune"%string /\
  page (step page2_session ClickNext) = 3 /\
  issued (step page2_session ClickNext)
  = issued page2_session
    ++ [mkRequest 2 "Dune" 3 "https://openlibrary.org/search.json?title=Dune&limit=20&offset=40" false].
Proof.
  assert (Hr : reachable page2_session)
    by (exists [DebounceFire "Dune"; Settle 0 (ok_json (Some dune_docs) (Some 45%N)); ClickNext];
        reflexivity).
  assert (Hd : next_disabled page2_session = false) by (vm_compute; reflexivity).
  assert (He : encodeURIComponent (debouncedQuery page2_session) = Some "Dune"%string)
    by (vm_compute; reflexivity).
  pose proof (next_click_fetches_new_page page2_session _ Hr Hd He) as H.
  cbv zeta in H; destruct H as (H1 & _ & _ & _ & _ & H6 & _).
  split; [exact Hr|]. split; [exact Hd|]. split; [exact He|].
  split; [rewrite H1; vm_compute; reflexivity|].
  rewrite H6; vm_compute; reflexivity.
Defined.

(** X10: when the query can be URL-encoded (to [e]), an enabled Prev
    button moves to [page - 1]; it issues exactly one request, for the
    query and that page, aborts every other pending request, clears the
    error, and keeps the results and numFound on screen until the
    response. *)
Theorem prev_click_fetches_previous_page s e :
  reachable s -> prev_disabled s = false -> encodeURIComponent (debouncedQuery s) = Some e ->
  let p := page s - 1 in
  let R := mkRequest (next_id s) (debouncedQuery s) p (search_url_enc e p) false in
  let s' := step s ClickPrev in
  page s' = p /\ 1 <= p /\ results s' = results s /\ numFound s' = numFound s /\
  error s' = None /\ issued s' = issued s ++ [R] /\
  In R (pending s') /\ (forall r, In r (pending s') -> aborted r = false -> r = R).
Proof.
  intros Hs Hd He; cbv zeta.
  pose proof (reachable_page_pos s Hs) as Hpos.
  assert (Hne : page s <> 1) by (unfold prev_disabled in Hd; apply Z.eqb_neq, Hd).
  assert (Hq : debouncedQuery s <> ""%js).
  { intros Hq; destruct (reachable_empty_ok s Hs Hq) as (_ & _ & _ & Hp). contradiction. }
  assert (Hu : prev_update (page s) = page s - 1) by (unfold prev_update; lia).
  cbn [step]; rewrite Hd, Hu.
  destruct (page_move s (page s - 1) e Hs Hq He ltac:(lia))
    as (H1 & _ & H3 & H4 & H5 & H7 & H8 & H9).
  split; [exact H1|split; [lia|]].
  repeat (split; [assumption|]); exact H9.
Qed.

Lemma prev_click_fetches_previous_page_witness :
  reachable page2_session /\ prev_disabled page2_session = false /\
  encodeURIComponent (debouncedQuery page2_session) = Some "Dune"%string /\
  page (step page2_session ClickPrev) = 1 /\
  issued (step page2_session ClickPrev)
  = issued page2_session
    ++ [mkRequest 2 "Dune" 1 "https://openlibrary.org/search.json?title=Dune&limit=20&offset=0" false].
Proof.
  assert (Hr : reachable page2_session)
    by (exists [DebounceFire "Dune"; Settle 0 (ok_json (Some dune_docs) (Some 45%N)); ClickNext];
        reflexivity).
  assert (Hd : prev_disabled page2_session = false) by (vm_compute; reflexivity).
  assert (He : encodeURIComponent (debouncedQuery page2_session) = Some "Dune"%string)
    by (vm_compute; reflexivity).
  pose proof (prev_click_fetches_previous_page page2_session _ Hr Hd He) as H.
  cbv zeta in H; destruct H as (H1 & _ & _ & _ & _ & H6 & _).
  split; [exact Hr|]. split; [exact Hd|]. split; [exact He|].
  split; [rewrite H1; vm_compute; reflexivity|].
  rewrite H6; vm_compute; reflexivity.
Defined.

(** ** The debounce hook *)

Lemma fire_due_consistent t s log :
  Debounce.consistent s ->
  Debounce.consistent (fst (Debounce.fire_due t (s, log))) /\
  Debounce.dvalue (fst (Debounce.fire_due t (s, log))) = Debounce.dvalue s.
Proof.
  unfold Debounce.fire_due, Debounce.consistent.
  destruct (Debounce.dtimer s) as [[d x]|] eqn:E; [destruct (d <=? t)|]; simpl;
    rewrite ?E; auto.
Qed.

Lemma input_consistent delay st ev :
  Debounce.consistent (fst st) ->
  Debounce.consistent (fst (Debounce.input delay st ev)) /\
  Debounce.dvalue (fst (Debounce.input delay st ev)) = snd ev.
Proof.
  destruct st as [s log], ev as [t x]; intros H; cbn [fst] in H; cbn [snd].
  unfold Debounce.input; cbv beta iota zeta.
  pose proof (fire_due_consistent t s log H) as [H1 H2].
  destruct (Debounce.fire_due t (s, log)) as [s1 log1]; simpl in H1, H2.
  destruct (String.eqb_spec x (Debounce.dvalue s1)) as [E|E]; simpl; [split; auto|].
  unfold Debounce.consistent; simpl; auto.
Qed.

Lemma fold_consistent delay l st :
  Debounce.consistent (fst st) ->
  Debounce.consistent (fst (fold_left (Debounce.input delay) l st)) /\
  Debounce.dvalue (fst (fold_left (Debounce.input delay) l st))
  = snd (last l (0, Debounce.dvalue (fst st))).
Proof.
  revert st; induction l as [|a l IH]; intros st H; simpl; [auto|].
  destruct (input_consistent delay st a H) as [H1 H2].
  destruct (IH _ H1) as [H3 H4]. split; [exact H3|rewrite H4].
  destruct l as [|b l]; simpl; [exact H2|].
  apply (f_equal snd), last_default.
Qed.

Lemma flush_consistent s log :
  Debounce.consistent s ->
  Debounce.dtimer (fst (Debounce.flush (s, log))) = None /\
  Debounce.dv (fst (Debounce.flush (s, log))) = Debounce.dvalue s /\
  Debounce.dvalue (fst (Debounce.flush (s, log))) = Debounce.dvalue s.
Proof.
  unfold Debounce.flush, Debounce.consistent.
  destruct (Debounce.dtimer s) as [[d x]|] eqn:E; simpl; [auto|rewrite E; auto].
Qed.

(** X11: whatever the timing of the inputs, once they stop the pending
    timer runs and the debounced value is the last value given to the
    hook; no timer is left behind. *)
Theorem debounce_settles_on_last_value delay s0 l :
  Debounce.consistent s0 ->
  let s := fst (Debounce.debounce delay s0 l) in
  Debounce.dtimer s = None /\ Debounce.dv s = Debounce.dvalue s /\
  Debounce.dv s = snd (last l (0, Debounce.dvalue s0)).
Proof.
  intros H; cbv zeta; unfold Debounce.debounce.
  destruct (fold_consistent delay l (s0, []) H) as [H1 H2].
  destruct (fold_left (Debounce.input delay) l (s0, [])) as [s log]; simpl in H1, H2.
  destruct (flush_consistent s log H1) as (F1 & F2 & F3).
  split; [exact F1|split; [rewrite F2, F3; reflexivity|rewrite F2, H2; reflexivity]].
Qed.

Lemma debounce_settles_on_last_value_witness :
  Debounce.dv (fst (Debounce.debounce 450 (Debounce.mkD "" "" None)
                      [(0, "D"%string); (1000, "Du"%string); (1100, "Dun"%string)]))
  = "Dun"%string.
Proof.
  destruct (debounce_settles_on_last_value 450 (Debounce.mkD "" "" None)
              [(0, "D"%string); (1000, "Du"%string); (1100, "Dun"%string)] eq_refl)
    as (_ & _ & H).
  rewrite H; reflexivity.
Defined.

Section Emissions.

Variable delay : Z.
Variable F : Z * string -> Prop.

Lemma fire_due_from t st :
  (forall e, In e (snd st) -> F e) -> timer_ok F (fst st) ->
  (forall e, In e (snd (Debounce.fire_due t st)) -> F e) /\
  timer_ok F (fst (Debounce.fire_due t st)).
Proof.
  destruct st as [s log]; simpl; intros H1 H2.
  unfold Debounce.fire_due.
  destruct (Debounce.dtimer s) as [[d x]|] eqn:E; [destruct (d <=? t)|]; simpl;
    [|split; auto..].
  split; [|intros e He; discriminate].
  intros e He; apply in_app_or in He as [He|[<-|[]]]; [apply H1, He|apply H2, E].
Qed.

Lemma input_from st ev :
  (forall e, In e (snd st) -> F e) -> timer_ok F (fst st) -> F (fst ev + delay, snd ev) ->
  (forall e, In e (snd (Debounce.input delay st ev)) -> F e) /\
  timer_ok F (fst (Debounce.input delay st ev)).
Proof.
  destruct ev as [t x]; intros H1 H2 H3; cbn [fst snd] in H3.
  unfold Debounce.input; cbv beta iota zeta.
  pose proof (fire_due_from t st H1 H2) as [G1 G2].
  destruct (Debounce.fire_due t st) as [s1 log1]; simpl in G1, G2.
  destruct (String.eqb x (Debounce.dvalue s1)); simpl; [split; assumption|].
  split; [exact G1|]. intros e He; injection He as <-; exact H3.
Qed.

Lemma fold_from rest st :
  (forall ev, In ev rest -> F (fst ev + delay, snd ev)) ->
  (forall e, In e (snd st) -> F e) -> timer_ok F (fst st) ->
  (forall e, In e (snd (fold_left (Debounce.input delay) rest st)) -> F e) /\
  timer_ok F (fst (fold_left (Debounce.input delay) rest st)).
Proof.
  revert st; induction rest as [|ev rest IH]; intros st Hr H1 H2; simpl; [auto|].
  destruct (input_from st ev H1 H2 (Hr ev (or_introl eq_refl))) as [G1 G2].
  apply IH; [intros ev' Hin; apply Hr; right; exact Hin|exact G1|exact G2].
Qed.

Lemma flush_from st :
  (forall e, In e (snd st) -> F e) -> timer_ok F (fst st) ->
  forall e, In e (snd (Debounce.flush st)) -> F e.
Proof.
  destruct st as [s log]; simpl; intros H1 H2.
  unfold Debounce.flush.
  destruct (Debounce.dtimer s) as [[d x]|] eqn:E; simpl; [|exact H1].
  intros e He; apply in_app_or in He as [He|[<-|[]]]; [apply H1, He|apply H2, E].
Qed.

End Emissions.

(** X12: starting without a pending timer, every [setV(x)] the hook
    performs at time [d] is for a value [x] that was given to the hook at
    time [d - delay]. *)
Theorem debounce_emissions_from_inputs delay s0 l d x :
  Debounce.dtimer s0 = None ->
  In (d, x) (snd (Debounce.debounce delay s0 l)) ->
  exists t, In (t, x) l /\ d = t + delay.
Proof.
  intros H0 Hin.
  set (F := fun e : Z * string => exists t, In (t, snd e) l /\ fst e = t + delay).
  assert (Hl : forall ev, In ev l -> F (fst ev + delay, snd ev)).
  { intros [t y] Hev; exists t; simpl; auto. }
  destruct (fold_from delay F l (s0, []) Hl ltac:(intros e [])
              ltac:(intros e He; simpl in He; congruence)) as [G1 G2].
  exact (flush_from F _ G1 G2 (d, x) Hin).
Qed.

Lemma debounce_emissions_from_inputs_witness :
  exists t, In (t, "D"%string) [(0, "D"%string); (1000, "Du"%string)] /\ 450 = t + 450.
Proof.
  apply (debounce_emissions_from_inputs 450 (Debounce.mkD "" "" None)
           [(0, "D"%string); (1000, "Du"%string)]); [reflexivity|].
  vm_compute; auto.
Defined.
